(** * Instagram profiles scraper: a shallow embedding of [src/main.py]

    The development follows the program in the order of the source file:

    - Python values as the program sees them (parsed JSON, dict literals),
      with truthiness, [dict.get], [str.strip] and the [or] operator;
    - [fetch_profile]: one request and its classification into a result;
    - [run_scrape]: one task per username under an [asyncio.Semaphore], as
      a transition system on scheduler states, driven by a schedule;
    - [main]: the input boundary.

    Exceptions are explicit ([result]).  The network is an argument: a
    [transport] answers a request with a response, or raises.  The choices
    of the event loop are an argument: a schedule, the scheduler events in
    the order they happen; every interleaving of the tasks is a schedule.

    Outside the model: logging and [print]; exceptions that do not derive
    from [Exception] (cancellation); characters above U+00FF in a str; and
    what lines 30 and 32 do when they fail.  The call of the proxy provider
    and the construction of the httpx client stand before the [try] of line
    33: an exception there (a proxy URL of a scheme that httpx does not
    know) leaves [fetch_profile] before any request.  The model takes both
    to succeed, so every statement below is about a fetch whose client was
    built, and a request is counted from the moment its task enters. *)

From Stdlib Require Import ZArith String Ascii List Bool Lia.
From Stdlib Require Import DecimalString SpecFloat.
From stdpp Require Import base option list strings.

Local Open Scope string_scope.
Local Open Scope list_scope.
Local Open Scope Z_scope.
Local Open Scope stdpp_scope.
Local Set Warnings "-register-all".

(** ** Python values *)

Module Py.

(** A value that [json()] can return, or that a dict literal of the program
    holds.  A dict keeps its items in insertion order, as Python does. *)
Inductive pyval : Type :=
| PNone
| PBool (b : bool)
| PInt (n : Z)
| PFloat (f : spec_float)
| PStr (s : string)
| PList (l : list pyval)
| PDict (d : list (string * pyval)).

(** A dict of the program: its items, first binding of a key wins. *)
Definition dict : Type := list (string * pyval).

(** Exceptions, by the class that decides which handler takes them.  Every
    class here derives from [Exception]. *)
Inductive exn_class : Type :=
| ConnectTimeout
| ConnectError
| WriteTimeout
| ReadTimeout
| AttributeError
| TypeError
| KeyError
| OtherError (name : string).

(** An exception with the text that [str(exc)] gives. *)
Record pyexn : Type := mk_exn { exn_class_of : exn_class; exn_msg : string }.

(** What evaluating an expression or calling a function yields. *)
Inductive result (A : Type) : Type :=
| Return (a : A)
| Raise (e : pyexn).
Arguments Return {A} a.
Arguments Raise {A} e.

Definition bind {A B : Type} (m : result A) (k : A -> result B) : result B :=
  match m with
  | Return a => k a
  | Raise e => Raise e
  end.

Notation "'let!' x ':=' m 'in' k" := (bind m (fun x => k))
  (at level 10, x name, m at level 100, k at level 200).

(** [bool(v)] *)
Definition truthy (v : pyval) : bool :=
  match v with
  | PNone => false
  | PBool b => b
  | PInt n => negb (n =? 0)
  | PFloat (S754_zero _) => false
  | PFloat _ => true
  | PStr s => negb (String.eqb s "")
  | PList l => match l with [] => false | _ => true end
  | PDict d => match d with [] => false | _ => true end
  end.

(** [a or b] *)
Definition py_or (a b : pyval) : pyval := if truthy a then a else b.

(** [type(v).__name__] *)
Definition type_name (v : pyval) : string :=
  match v with
  | PNone => "NoneType"
  | PBool _ => "bool"
  | PInt _ => "int"
  | PFloat _ => "float"
  | PStr _ => "str"
  | PList _ => "list"
  | PDict _ => "dict"
  end.

Definition no_attribute (v : pyval) (attr : string) : pyexn :=
  mk_exn AttributeError
    ("'" +:+ type_name v +:+ "' object has no attribute '" +:+ attr +:+ "'").

(** Lookup in the items of a dict. *)
Fixpoint lookup_item (k : string) (d : dict) : option pyval :=
  match d with
  | [] => None
  | (k', v) :: d' => if String.eqb k k' then Some v else lookup_item k d'
  end.

(** [v.get(k, dflt)]: only a dict has the method. *)
Definition get_or (v : pyval) (k : string) (dflt : pyval) : result pyval :=
  match v with
  | PDict d => Return (default dflt (lookup_item k d))
  | _ => Raise (no_attribute v "get")
  end.

(** [v.get(k)] *)
Definition get (v : pyval) (k : string) : result pyval := get_or v k PNone.

(** [v[k]]: the program subscripts dicts only. *)
Definition getitem (v : pyval) (k : string) : result pyval :=
  match v with
  | PDict d =>
      match lookup_item k d with
      | Some x => Return x
      | None => Raise (mk_exn KeyError ("'" +:+ k +:+ "'"))
      end
  | _ => Raise (mk_exn TypeError
                  ("'" +:+ type_name v +:+ "' object is not subscriptable"))
  end.

(** [isinstance(v, dict)] *)
Definition is_dict (v : pyval) : bool :=
  match v with PDict _ => true | _ => false end.

(** [str(n)] for an int *)
Definition str_of_int (n : Z) : string := NilZero.string_of_int (Z.to_int n).

(** [str(v)], as an f-string applies it to a field.  The text of a float,
    a list or a dict is their [repr], which is the interpreter's business:
    it is the argument [repr]. *)
Definition str_of (repr : pyval -> string) (v : pyval) : string :=
  match v with
  | PNone => "None"
  | PBool true => "True"
  | PBool false => "False"
  | PInt n => str_of_int n
  | PStr s => s
  | _ => repr v
  end.

(** [c.isspace()] for a character below U+0100. *)
Definition is_space (c : ascii) : bool :=
  let n := nat_of_ascii c in
  ((9 <=? n) && (n <=? 13) || (28 <=? n) && (n <=? 32)
   || (n =? 133) || (n =? 160))%nat.

Fixpoint lstrip (s : string) : string :=
  match s with
  | EmptyString => EmptyString
  | String c s' => if is_space c then lstrip s' else s
  end.

Fixpoint rstrip (s : string) : string :=
  match s with
  | EmptyString => EmptyString
  | String c s' =>
      match rstrip s' with
      | EmptyString => if is_space c then EmptyString else String c EmptyString
      | r => String c r
      end
  end.

(** [s.strip()] *)
Definition strip (s : string) : string := rstrip (lstrip s).

End Py.
Import Py.

(** ** The transport: httpx as the program uses it *)

(** [httpx.Timeout(timeout=t, connect=c, read=r)]: the budgets that are not
    named take the default [t]. *)
Record Timeout : Type := mk_timeout
  { t_connect : Z; t_read : Z; t_write : Z; t_pool : Z }.

Definition httpx_Timeout (timeout connect read : Z) : Timeout :=
  {| t_connect := connect; t_read := read; t_write := timeout; t_pool := timeout |}.

(** What [client.get] sends, with the client's proxy and timeout. *)
Record request : Type := mk_request
  { req_url : string;
    req_headers : list (string * string);
    req_cookies : list (string * string);
    req_proxy : pyval;
    req_timeout : Timeout }.

(** A response: [resp.status_code], and what [resp.json()] does. *)
Record response : Type := mk_response
  { status_code : Z; json : result pyval }.

(** The network as one fetch meets it: the request is answered, or the
    call raises. *)
Definition transport : Type := request -> result response.

(** The proxy provider: [new_url pc n] is the URL of its call number [n]
    (a provider that rotates gives different ones). *)
Record ProxyConfiguration : Type := mk_proxy { new_url : nat -> string }.

(** ** Module constants (lines 7-19) *)

Definition BASE_HEADERS : list (string * string) :=
  [("x-ig-app-id", "936619743392459")].

Definition SOCK_CONNECT_TIMEOUT : Z := 4.
Definition SOCK_READ_TIMEOUT : Z := 8.
Definition TOTAL_TIMEOUT : Z := 15.

Definition HTTPX_TIMEOUT : Timeout :=
  httpx_Timeout TOTAL_TIMEOUT SOCK_CONNECT_TIMEOUT SOCK_READ_TIMEOUT.

(** ** fetch_profile (lines 22-83) *)

Section FetchProfile.

(** [repr] of floats and containers, used by the f-strings only. *)
Variable repr : pyval -> string.

(** Line 29. *)
Definition profile_url (username : string) : string :=
  "https://i.instagram.com/api/v1/users/web_profile_info/?username=" +:+ username.

(** Line 30: [proxy_config.new_url() if proxy_config else None], with the
    number of URLs the provider has served so far. *)
Definition resolve_proxy (proxy_config : option ProxyConfiguration) (served : nat)
  : pyval * nat :=
  match proxy_config with
  | Some pc => (PStr (new_url pc served), S served)
  | None => (PNone, served)
  end.

(** Lines 70-83: the success record. *)
Definition success_record (username : string) (proxy_url data : pyval)
  : result dict :=
  let! user := (if is_dict data
                then let! d := get_or data "data" (PDict []) in
                     get_or d "user" (PDict [])
                else Return (PDict [])) in
  let! user_id := get user "id" in
  let! followed_by := get_or user "edge_followed_by" (PDict []) in
  let! followers_count := get followed_by "count" in
  let! follow := get_or user "edge_follow" (PDict []) in
  let! following_count := get follow "count" in
  let! full_name := get user "full_name" in
  let! is_private := get user "is_private" in
  let! is_verified := get user "is_verified" in
  let! pic_hd := get user "profile_pic_url_hd" in
  let! profile_pic_url := (if truthy pic_hd then Return pic_hd
                           else get user "profile_pic_url") in
  Return [("username", PStr username);
          ("user_id", user_id);
          ("followers_count", followers_count);
          ("following_count", following_count);
          ("full_name", full_name);
          ("is_private", is_private);
          ("is_verified", is_verified);
          ("profile_pic_url", profile_pic_url);
          ("raw", data);
          ("status", PStr "ok");
          ("proxy", proxy_url)].

(** Lines 57-83: a 200 response. *)
Definition on_ok_response (username : string) (proxy_url : pyval) (resp : response)
  : result dict :=
  match json resp with
  | Raise exc =>
      Return [("username", PStr username);
              ("error", PStr ("Invalid JSON: " +:+ exn_msg exc));
              ("proxy", proxy_url)]
  | Return data =>
      let! err := get data "error" in
      if truthy err then
        let! shown := getitem data "error" in
        let! code := get_or data "status_code" (PInt 500) in
        Return [("username", PStr username);
                ("error", PStr ("Failed to fetch user details: " +:+ str_of repr shown));
                ("status_code", code);
                ("proxy", proxy_url)]
      else success_record username proxy_url data
  end.

(** Lines 46-83: a response of any status. *)
Definition on_response (username : string) (proxy_url : pyval) (resp : response)
  : result dict :=
  if status_code resp =? 401 then
    Return [("username", PStr username);
            ("error", PStr "Unauthorized error");
            ("status_code", PInt 401);
            ("proxy", proxy_url)]
  else if negb (status_code resp =? 200) then
    Return [("username", PStr username);
            ("error", PStr ("Failed to fetch user details: "
                            +:+ str_of_int (status_code resp)));
            ("status_code", PInt (status_code resp));
            ("proxy", proxy_url)]
  else on_ok_response username proxy_url resp.

(** Lines 35-44: the handlers of the request, in their order. *)
Definition on_transport_error (username : string) (proxy_url : pyval) (exc : pyexn)
  : dict :=
  match exn_class_of exc with
  | ConnectTimeout =>
      [("username", PStr username); ("error", PStr "Proxy connect timeout");
       ("proxy", proxy_url)]
  | ConnectError =>
      [("username", PStr username); ("error", PStr "Proxy connect error");
       ("proxy", proxy_url)]
  | WriteTimeout =>
      [("username", PStr username); ("error", PStr "Proxy write timeout");
       ("proxy", proxy_url)]
  | ReadTimeout =>
      [("username", PStr username); ("error", PStr "Proxy read timeout");
       ("proxy", proxy_url)]
  | _ =>
      [("username", PStr username); ("error", PStr (exn_msg exc));
       ("proxy", proxy_url)]
  end.

(** Lines 32 and 34: the request of one fetch. *)
Definition build_request (username : string) (headers : list (string * string))
    (timeout : Timeout) (proxy_url : pyval) : request :=
  let url := profile_url username in
  {| req_url := url; req_headers := headers; req_cookies := [];
     req_proxy := proxy_url; req_timeout := timeout |}.

(** Lines 29 and 32-83, once the proxy URL is known. *)
Definition fetch_via (username : string) (headers : list (string * string))
    (timeout : Timeout) (proxy_url : pyval) (client_get : transport)
  : result dict :=
  match client_get (build_request username headers timeout proxy_url) with
  | Raise exc => Return (on_transport_error username proxy_url exc)
  | Return resp => on_response username proxy_url resp
  end.

(** The function, for a provider call and a client construction that
    succeed (lines 30 and 32 are not guarded by the [try]).  [served] counts
    the calls the proxy provider has answered; the second component is the
    count afterwards. *)
Definition fetch_profile (username : string) (headers : list (string * string))
    (timeout : Timeout) (proxy_config : option ProxyConfiguration)
    (client_get : transport) (served : nat) : result dict * nat :=
  let '(proxy_url, served') := resolve_proxy proxy_config served in
  (fetch_via username headers timeout proxy_url client_get, served').

End FetchProfile.

(** ** run_scrape (lines 86-101)

    [asyncio.gather] makes one task per username.  A task waits at
    [async with sem] until the semaphore has a slot, takes it, runs
    [fetch_profile], and gives the slot back when it leaves the block, with
    a result or with an exception.  The event loop decides the order; here
    the order is the schedule. *)

Inductive task : Type :=
| Waiting                     (* not past [async with sem] yet *)
| InFlight (served : nat)     (* holds a slot, inside [fetch_profile], entered
                                 when the provider had served that many URLs *)
| Done (r : result dict).     (* left the block *)

Record sched : Type := mk_sched
  { sem_value : Z;              (* free slots of the semaphore *)
    proxy_served : nat;         (* calls the proxy provider has answered *)
    tasks : list task;          (* by position in [usernames] *)
    sent : list request;        (* requests issued so far, oldest first *)
    raised : option pyexn }.    (* first exception a task ended with *)

Inductive event : Type :=
| Acquire (i : nat)           (* task [i] passes [async with sem] *)
| Finish (i : nat).           (* the fetch of task [i] is over *)

(** Tasks that hold a slot: the fetches in flight. *)
Definition holds_slot (t : task) : bool :=
  match t with InFlight _ => true | _ => false end.

Fixpoint count_slots (ts : list task) : nat :=
  match ts with
  | [] => 0
  | t :: ts' => ((if holds_slot t then 1 else 0) + count_slots ts')%nat
  end.

Definition in_flight (s : sched) : nat := count_slots (tasks s).

Section RunScrape.

Variable repr : pyval -> string.
Variable usernames : list string.
Variable headers : list (string * string).
Variable timeout : Timeout.
Variable proxy_config : option ProxyConfiguration.
(** [None] when the caller leaves the argument out. *)
Variable max_concurrency : option Z.
(** The network as the fetch of task [i] meets it. *)
Variable net : nat -> transport.

(** Lines 91 and 93: the capacity of the semaphore. *)
Definition concurrency_limit : Z := Z.max 1 (default 10 max_concurrency).

(** Lines 93 and 99: the semaphore is full and every task waits. *)
Definition start (served : nat) : sched :=
  {| sem_value := concurrency_limit;
     proxy_served := served;
     tasks := map (fun _ => Waiting) usernames;
     sent := [];
     raised := None |}.

(** One event.  [Acquire] stands for lines 96, 30, 32 and the call of line
    34 together: they run without a suspension in between when the client
    is built. *)
Definition step (ev : event) (s : sched) : option sched :=
  match ev with
  | Acquire i =>
      match tasks s !! i, usernames !! i with
      | Some Waiting, Some u =>
          if 0 <? sem_value s then
            let '(proxy_url, served') := resolve_proxy proxy_config (proxy_served s) in
            Some {| sem_value := sem_value s - 1;
                    proxy_served := served';
                    tasks := <[i := InFlight (proxy_served s)]> (tasks s);
                    sent := sent s ++ [build_request u headers timeout proxy_url];
                    raised := raised s |}
          else None
      | _, _ => None
      end
  | Finish i =>
      match tasks s !! i, usernames !! i with
      | Some (InFlight served), Some u =>
          let r := fst (fetch_profile repr u headers timeout proxy_config
                          (net i) served) in
          Some {| sem_value := sem_value s + 1;
                  proxy_served := proxy_served s;
                  tasks := <[i := Done r]> (tasks s);
                  sent := sent s;
                  raised := match raised s, r with
                            | None, Raise e => Some e
                            | first, _ => first
                            end |}
      | _, _ => None
      end
  end.

(** A schedule runs while each of its events is enabled. *)
Fixpoint exec (schedule : list event) (s : sched) : option sched :=
  match schedule with
  | [] => Some s
  | ev :: rest =>
      match step ev s with
      | Some s' => exec rest s'
      | None => None
      end
  end.

(** The results of the tasks in task order, once every task has returned. *)
Fixpoint collect (ts : list task) : option (list dict) :=
  match ts with
  | [] => Some []
  | Done (Return r) :: ts' =>
      match collect ts' with
      | Some rs => Some (r :: rs)
      | None => None
      end
  | _ :: _ => None
  end.

(** Line 100, [await asyncio.gather( *tasks)]: the first exception of a
    task is raised in the caller at once; otherwise the caller resumes when
    every task has returned, with the results in task order.  [None]: the
    caller is still suspended. *)
Definition gather (s : sched) : option (result (list dict)) :=
  match raised s with
  | Some e => Some (Raise e)
  | None =>
      match collect (tasks s) with
      | Some rs => Some (Return rs)
      | None => None
      end
  end.

(** The function, along a schedule.  [None]: the schedule is not one of the
    program (an event that is not enabled) or stops before [gather] is
    over. *)
Definition run_scrape (served : nat) (schedule : list event)
  : option (result pyval) :=
  match exec schedule (start served) with
  | None => None
  | Some s =>
      match gather s with
      | None => None
      | Some r =>
          Some (let! results := r in
                Return (PDict [("results", PList (map PDict results))]))
      end
  end.

End RunScrape.

(** ** main (lines 104-130) *)

(** [for u in v]: a list gives its elements, a str its characters, a dict
    its keys; the other values are not iterable. *)
Definition iterate (v : pyval) : result (list pyval) :=
  match v with
  | PList l => Return l
  | PStr s => Return (map (fun c => PStr (String c EmptyString)) (list_ascii_of_string s))
  | PDict d => Return (map (fun kv => PStr (fst kv)) d)
  | _ => Raise (mk_exn TypeError ("'" +:+ type_name v +:+ "' object is not iterable"))
  end.

(** Line 111: [[u.strip() for u in raw if isinstance(u, str) and u.strip()]] *)
Fixpoint clean_usernames (raw : list pyval) : list string :=
  match raw with
  | [] => []
  | PStr u :: rest =>
      if truthy (PStr (strip u)) then strip u :: clean_usernames rest
      else clean_usernames rest
  | _ :: rest => clean_usernames rest
  end.

(** Lines 107-111: from the actor's input to the usernames. *)
Definition read_usernames (input : pyval) : result (list string) :=
  let input_payload := py_or input (PDict []) in
  let! found := get input_payload "usernames" in
  let raw_usernames := py_or found (PList []) in
  let! items := iterate raw_usernames in
  Return (clean_usernames items).

(** What a run of [main] leaves: the value stored under OUTPUT and the
    requests that went out. *)
Record main_run : Type := mk_main_run
  { OUTPUT : pyval; requests : list request }.

Section Main.

Variable repr : pyval -> string.
(** [actor.get_input()]: [PNone] when the actor has no input. *)
Variable input : pyval.
(** [actor.config.get("proxyConfiguration")] *)
Variable proxy_config : option ProxyConfiguration.
Variable net : nat -> transport.

Definition main (served : nat) (schedule : list event) : option (result main_run) :=
  match read_usernames input with
  | Raise e => Some (Raise e)
  | Return usernames =>
      match usernames with
      | [] =>
          Some (Return {| OUTPUT := PDict [("error", PStr "usernames list is required")];
                          requests := [] |})
      | _ :: _ =>
          let headers := BASE_HEADERS in
          let max_concurrency := 10 in
          match run_scrape repr usernames headers HTTPX_TIMEOUT proxy_config
                  (Some max_concurrency) net served schedule,
                exec repr usernames headers HTTPX_TIMEOUT proxy_config net schedule
                  (start usernames (Some max_concurrency) served) with
          | Some (Return results), Some s =>
              Some (Return {| OUTPUT := results; requests := sent s |})
          | Some (Raise e), _ => Some (Raise e)
          | _, _ => None
          end
      end
  end.

End Main.

(** ** Vocabulary of the statements *)

(** [d.get(k)] as a value: [None] of Python when the key is absent. *)
Definition field (k : string) (d : dict) : pyval := default PNone (lookup_item k d).

(** The object under [k], the empty one when the key is absent. *)
Definition child (k : string) (d : dict) : dict :=
  match lookup_item k d with
  | Some (PDict d') => d'
  | _ => []
  end.

(** The key is absent, or bound to an object. *)
Definition absent_or_object (k : string) (d : dict) : bool :=
  match lookup_item k d with
  | None | Some (PDict _) => true
  | Some _ => false
  end.

(** The nested levels that the success record reads. *)
Definition levels_well_shaped (d : dict) : bool :=
  absent_or_object "data" d
  && absent_or_object "user" (child "data" d)
  && absent_or_object "edge_followed_by" (child "user" (child "data" d))
  && absent_or_object "edge_follow" (child "user" (child "data" d)).

(** The records of the failure paths: username, error text, proxy, and a
    status code on some of them; never a status. *)
Definition error_record (username msg : string) (code : option pyval)
    (proxy_url : pyval) : dict :=
  match code with
  | Some c => [("username", PStr username); ("error", PStr msg);
               ("status_code", c); ("proxy", proxy_url)]
  | None => [("username", PStr username); ("error", PStr msg); ("proxy", proxy_url)]
  end.

(** The two marks of a result. *)
Definition status_ok (r : dict) : Prop := lookup_item "status" r = Some (PStr "ok").

Definition populated_error (r : dict) : Prop :=
  exists msg, lookup_item "error" r = Some (PStr msg) /\ msg <> "".

Definition exactly_one_mark (r : dict) : Prop :=
  (status_ok r /\ ~ populated_error r) \/ (~ status_ok r /\ populated_error r).

(** An exception that none of the four named handlers takes. *)
Definition uncategorized (exc : pyexn) : Prop :=
  match exn_class_of exc with
  | ConnectTimeout | ConnectError | WriteTimeout | ReadTimeout => False
  | _ => True
  end.

(** A string of whitespace only. *)
Fixpoint blank (s : string) : bool :=
  match s with
  | EmptyString => true
  | String c s' => is_space c && blank s'
  end.

(** A transport that answers every request with status 200 and this body. *)
Definition answers_200 (body : pyval) : transport :=
  fun _ => Return {| status_code := 200; json := Return body |}.

(** A provider that rotates: its call number [n] gives proxy number [n]. *)
Definition rotating : ProxyConfiguration :=
  {| new_url := fun n => "http://proxy-" +:+ str_of_int (Z.of_nat n) +:+ ".local:8000" |}.

(** A request that fails with an exception of this class and text. *)
Definition fails_with (class : exn_class) (msg : string) : transport :=
  fun _ => Raise (mk_exn class msg).

(** For the examples: a [repr] whose text does not matter there. *)
Definition repr_elided : pyval -> string := fun _ => "...".






(** The events that a task still has before it: two while it waits, one
    while it is in flight. *)
Fixpoint remaining (ts : list task) : nat :=
  match ts with
  | [] => 0
  | Waiting :: ts' => (2 + remaining ts')%nat
  | InFlight _ :: ts' => (1 + remaining ts')%nat
  | Done _ :: ts' => remaining ts'
  end.

(** What holds in every state that a schedule reaches: one task per
    username; the free slots and the fetches in flight add up to the limit;
    a finished task holds the result of [fetch_profile] for its username;
    while no exception is recorded the finished tasks have returned. *)
Section Sound.

Variable repr : pyval -> string.
Variable usernames : list string.
Variable headers : list (string * string).
Variable timeout : Timeout.
Variable proxy_config : option ProxyConfiguration.
Variable max_concurrency : option Z.
Variable net : nat -> transport.

Record sound (s : sched) : Prop := mk_sound
  { sound_length : length (tasks s) = length usernames;
    sound_free : 0 <= sem_value s;
    sound_slots : sem_value s + Z.of_nat (in_flight s) = concurrency_limit max_concurrency;
    sound_done : forall i r, tasks s !! i = Some (Done r) ->
                 exists u k, usernames !! i = Some u
                 /\ r = fst (fetch_profile repr u headers timeout proxy_config (net i) k);
    sound_raised : match raised s with
                   | None => forall i r, tasks s !! i = Some (Done r) ->
                                         exists d, r = Return d
                   | Some e => exists i, tasks s !! i = Some (Done (Raise e))
                   end }.

End Sound.

(** The keys of the three records that [fetch_profile] builds, in the order
    of the dict literals. *)
Definition success_keys : list string :=
  ["username"; "user_id"; "followers_count"; "following_count"; "full_name";
   "is_private"; "is_verified"; "profile_pic_url"; "raw"; "status"; "proxy"].

Definition failure_keys (with_code : bool) : list string :=
  if with_code then ["username"; "error"; "status_code"; "proxy"]
  else ["username"; "error"; "proxy"].

(** The values that [for u in v] refuses, among the truthy ones. *)
Definition not_iterable (v : pyval) : bool :=
  match v with
  | PBool _ | PInt _ | PFloat _ => true
  | _ => false
  end.

(** The characters of a str that are not whitespace, each as a str. *)
Fixpoint visible_characters (s : string) : list string :=
  match s with
  | EmptyString => []
  | String c s' =>
      if is_space c then visible_characters s'
      else String c EmptyString :: visible_characters s'
  end.

(** The payload that [main] stores when it has no username. *)
Definition input_error : main_run :=
  {| OUTPUT := PDict [("error", PStr "usernames list is required")]; requests := [] |}.

(** For the examples: the first fetch finds a user, the second one times
    out on reading, every later one gets a body that is not an object. *)
Definition example_net : nat -> transport :=
  fun i =>
    match i with
    | 0%nat => answers_200 (PDict [("data", PDict [("user", PDict [("id", PStr "1")])])])
    | 1%nat => fails_with ReadTimeout ""
    | _ => answers_200 (PList [])
    end.

(** For the examples: twelve usernames, of which the first one gets a body
    that is not an object, and the run in which ten tasks enter, the first
    fetch ends, and the eleventh task takes the slot it frees. *)
Definition dozen : list string :=
  ["u00"; "u01"; "u02"; "u03"; "u04"; "u05"; "u06"; "u07"; "u08"; "u09"; "u10"; "u11"].

Definition first_body_is_list : nat -> transport :=
  fun i =>
    match i with
    | 0%nat => answers_200 (PList [])
    | _ => answers_200 (PDict [])
    end.

Definition ten_enter_first_ends : list event :=
  [Acquire 0; Acquire 1; Acquire 2; Acquire 3; Acquire 4; Acquire 5; Acquire 6;
   Acquire 7; Acquire 8; Acquire 9; Finish 0; Acquire 10].

(** * Properties *)

(** ** Python values *)

Lemma bind_Return {A B : Type} (m : result A) (k : A -> result B) (b : B) :
  bind m k = Return b -> exists a, m = Return a /\ k a = Return b.
Proof. destruct m as [a|e]; simpl; [eauto | discriminate]. Qed.

Lemma get_or_Return (v : pyval) (k : string) (dflt x : pyval) :
  get_or v k dflt = Return x ->
  exists d, v = PDict d /\ x = default dflt (lookup_item k d).
Proof. destruct v; simpl; try discriminate. intros [= <-]. eauto. Qed.

Lemma get_Return (v : pyval) (k : string) (x : pyval) :
  get v k = Return x -> exists d, v = PDict d /\ x = field k d.
Proof. apply get_or_Return. Qed.

Lemma get_or_not_dict (v : pyval) (k : string) (dflt : pyval) :
  is_dict v = false -> get_or v k dflt = Raise (no_attribute v "get").
Proof. destruct v; simpl; try reflexivity. discriminate. Qed.

Lemma truthy_field_present (k : string) (d : dict) :
  truthy (field k d) = true -> lookup_item k d = Some (field k d).
Proof. unfold field. destruct (lookup_item k d); simpl; [reflexivity | discriminate]. Qed.

Lemma child_object (k : string) (d d' : dict) :
  lookup_item k d = Some (PDict d') -> child k d = d'.
Proof. unfold child. intros ->. reflexivity. Qed.

Lemma absent_or_object_default (k : string) (d : dict) :
  absent_or_object k d = true ->
  default (PDict []) (lookup_item k d) = PDict (child k d).
Proof.
  unfold absent_or_object, child.
  destruct (lookup_item k d) as [[]|]; simpl; congruence.
Qed.

Lemma prefixed_nonempty (prefix rest : string) :
  prefix <> "" -> prefix +:+ rest <> "".
Proof. destruct prefix; [congruence | discriminate]. Qed.

(** ** fetch_profile *)

Section FetchProfileFacts.

Variable repr : pyval -> string.
Variable username : string.
Variable headers : list (string * string).
Variable timeout : Timeout.

(** The success record, when every level it reads is absent or an object. *)
Lemma success_record_shape (proxy_url : pyval) (d : dict) :
  levels_well_shaped d = true ->
  let user := child "user" (child "data" d) in
  let pic_hd := field "profile_pic_url_hd" user in
  success_record username proxy_url (PDict d) =
  Return [("username", PStr username);
          ("user_id", field "id" user);
          ("followers_count", field "count" (child "edge_followed_by" user));
          ("following_count", field "count" (child "edge_follow" user));
          ("full_name", field "full_name" user);
          ("is_private", field "is_private" user);
          ("is_verified", field "is_verified" user);
          ("profile_pic_url",
           if truthy pic_hd then pic_hd else field "profile_pic_url" user);
          ("raw", PDict d);
          ("status", PStr "ok");
          ("proxy", proxy_url)].
Proof.
  intros Hshape user pic_hd. unfold levels_well_shaped in Hshape.
  rewrite !andb_true_iff in Hshape.
  destruct Hshape as [[[Hdata Huser] Hby] Hfollow].
  unfold success_record, get. cbn [is_dict get_or bind].
  rewrite (absent_or_object_default _ _ Hdata). cbn [get_or bind].
  rewrite (absent_or_object_default _ _ Huser). cbn [get_or bind].
  rewrite (absent_or_object_default _ _ Hby). cbn [get_or bind].
  rewrite (absent_or_object_default _ _ Hfollow). cbn [get_or bind].
  subst pic_hd user. unfold field.
  destruct (truthy _); reflexivity.
Qed.

(** Whatever the body, a success record that is returned has these marks. *)
Lemma success_record_marks (proxy_url data : pyval) (r : dict) :
  success_record username proxy_url data = Return r ->
  lookup_item "username" r = Some (PStr username)
  /\ lookup_item "status" r = Some (PStr "ok")
  /\ lookup_item "error" r = None
  /\ lookup_item "status_code" r = None
  /\ lookup_item "proxy" r = Some proxy_url.
Proof.
  unfold success_record. intros H.
  repeat (apply bind_Return in H as (? & _ & H)).
  injection H as <-. repeat split; reflexivity.
Qed.

Lemma error_record_marks (msg : string) (code : option pyval) (proxy_url : pyval) :
  let r := error_record username msg code proxy_url in
  lookup_item "username" r = Some (PStr username)
  /\ lookup_item "status" r = None
  /\ lookup_item "error" r = Some (PStr msg)
  /\ lookup_item "status_code" r = code
  /\ lookup_item "proxy" r = Some proxy_url.
Proof. destruct code; repeat split; reflexivity. Qed.

(** The handlers of the request: the text of each. *)
Lemma on_transport_error_text (proxy_url : pyval) (exc : pyexn) :
  exists msg,
    on_transport_error username proxy_url exc = error_record username msg None proxy_url
    /\ (exn_class_of exc = ConnectTimeout -> msg = "Proxy connect timeout")
    /\ (exn_class_of exc = ConnectError -> msg = "Proxy connect error")
    /\ (exn_class_of exc = WriteTimeout -> msg = "Proxy write timeout")
    /\ (exn_class_of exc = ReadTimeout -> msg = "Proxy read timeout")
    /\ (uncategorized exc -> msg = exn_msg exc).
Proof.
  unfold on_transport_error, uncategorized.
  destruct (exn_class_of exc); eexists; (split; [reflexivity |]);
    repeat split; intros; (reflexivity || discriminate || contradiction).
Qed.

(** Every result that a response leads to is a success record or one of the
    failure records with a text that is not empty. *)
Lemma on_response_cases (proxy_url : pyval) (resp : response) (r : dict) :
  on_response repr username proxy_url resp = Return r ->
  (exists data, json resp = Return data
                /\ success_record username proxy_url data = Return r)
  \/ (exists msg code, r = error_record username msg code proxy_url /\ msg <> "").
Proof.
  unfold on_response.
  destruct (status_code resp =? 401).
  { intros [= <-]. right. exists "Unauthorized error", (Some (PInt 401)).
    split; [reflexivity | discriminate]. }
  destruct (negb (status_code resp =? 200)).
  { intros [= <-]. right. eexists _, (Some _). split; [reflexivity | discriminate]. }
  unfold on_ok_response. destruct (json resp) as [data | exc].
  2:{ intros [= <-]. right. eexists _, None. split; [reflexivity | discriminate]. }
  intros H. apply bind_Return in H as (err & _ & H).
  destruct (truthy err).
  - apply bind_Return in H as (shown & _ & H).
    apply bind_Return in H as (code & _ & H).
    injection H as <-. right. eexists _, (Some code).
    split; [reflexivity | discriminate].
  - left. eauto.
Qed.

End FetchProfileFacts.

Section FetchProfileClaims.

Variable repr : pyval -> string.
Variable username : string.
Variable headers : list (string * string).
Variable timeout : Timeout.
Variable proxy_config : option ProxyConfiguration.
Variable client_get : transport.
Variable served : nat.

(** The URL that line 30 resolves, and the request that goes out with it. *)
Let proxy_url : pyval := fst (resolve_proxy proxy_config served).
Let req : request := build_request username headers timeout proxy_url.

Lemma fetch_profile_unfold :
  fetch_profile repr username headers timeout proxy_config client_get served =
  (fetch_via repr username headers timeout proxy_url client_get,
   snd (resolve_proxy proxy_config served)).
Proof.
  unfold fetch_profile, proxy_url.
  destruct (resolve_proxy proxy_config served). reflexivity.
Qed.

(** Every result carries the username it was asked for. *)
Lemma fetch_profile_username (r : dict) :
  fst (fetch_profile repr username headers timeout proxy_config client_get served)
  = Return r ->
  lookup_item "username" r = Some (PStr username).
Proof.
  rewrite fetch_profile_unfold. cbn [fst]. unfold fetch_via.
  destruct (client_get _) as [resp | exc].
  - intros H. apply on_response_cases in H as [(data & _ & H) | (msg & code & -> & _)].
    + apply success_record_marks in H. tauto.
    + apply error_record_marks.
  - intros [= <-].
    destruct (on_transport_error_text username proxy_url exc) as (msg & -> & _).
    apply (error_record_marks username msg None).
Qed.

(** C2, amended.  Every result that [fetch_profile] returns has exactly one
    of the two marks as a key: a status, which is "ok", or an error, which
    is a string.  The error string is not empty, except when it is the text
    of an exception that none of the named handlers took and that text is
    empty. *)
Theorem fetch_profile_one_mark (r : dict) :
  fst (fetch_profile repr username headers timeout proxy_config client_get served)
  = Return r ->
  (status_ok r /\ lookup_item "error" r = None)
  \/ (lookup_item "status" r = None
      /\ exists msg, lookup_item "error" r = Some (PStr msg)
         /\ (msg = "" ->
             exists exc, client_get req = Raise exc
                         /\ uncategorized exc /\ exn_msg exc = "")).
Proof.
  rewrite fetch_profile_unfold. cbn [fst]. unfold fetch_via. fold req.
  destruct (client_get req) as [resp | exc].
  - intros H. apply on_response_cases in H as [(data & _ & H) | (msg & code & -> & Hmsg)].
    + left. apply success_record_marks in H. unfold status_ok. tauto.
    + right. destruct (error_record_marks username msg code proxy_url)
        as (_ & Hstatus & Herror & _).
      split; [exact Hstatus |]. exists msg. split; [exact Herror | contradiction].
  - intros [= <-]. right.
    destruct (on_transport_error_text username proxy_url exc)
      as (msg & -> & Hct & Hce & Hwt & Hrt & Hother).
    destruct (error_record_marks username msg None proxy_url)
      as (_ & Hstatus & Herror & _).
    split; [exact Hstatus |]. exists msg. split; [exact Herror |].
    intros ->. exists exc. split; [reflexivity |].
    assert (Hunc : uncategorized exc).
    { unfold uncategorized.
      destruct (exn_class_of exc); try exact I;
        [specialize (Hct eq_refl) | specialize (Hce eq_refl)
         | specialize (Hwt eq_refl) | specialize (Hrt eq_refl)]; discriminate. }
    split; [exact Hunc |]. symmetry. exact (Hother Hunc).
Qed.

(** C3, the defect.  A 200 response whose body parses to a value that is
    not an object makes [fetch_profile] raise AttributeError: line 62 calls
    [data.get] before line 70 asks [isinstance(data, dict)]. *)
Theorem fetch_profile_raises_on_non_object (resp : response) (body : pyval) :
  client_get req = Return resp ->
  status_code resp = 200 ->
  json resp = Return body ->
  is_dict body = false ->
  fst (fetch_profile repr username headers timeout proxy_config client_get served)
  = Raise (no_attribute body "get").
Proof.
  intros Hget Hstatus Hjson Hbody.
  rewrite fetch_profile_unfold. cbn [fst]. unfold fetch_via. fold req.
  rewrite Hget. unfold on_response, on_ok_response. rewrite Hstatus, Hjson.
  cbn [Z.eqb Pos.eqb negb]. unfold get.
  rewrite (get_or_not_dict _ _ _ Hbody). reflexivity.
Qed.

(** C4, amended.  For a 200 response whose body is an object with no truthy
    error entry, and in which data, data.user, edge_followed_by and
    edge_follow are each absent or objects, the result is the success record
    read through lookups that take the empty object at an absent level;
    profile_pic_url is the high-resolution entry when that one is truthy and
    the standard entry (None of Python when absent) otherwise.  When the
    user object is missing, every extracted field is None. *)
Theorem fetch_profile_success_record (resp : response) (d : dict) :
  client_get req = Return resp ->
  status_code resp = 200 ->
  json resp = Return (PDict d) ->
  truthy (field "error" d) = false ->
  levels_well_shaped d = true ->
  let user := child "user" (child "data" d) in
  let pic_hd := field "profile_pic_url_hd" user in
  fst (fetch_profile repr username headers timeout proxy_config client_get served)
  = Return [("username", PStr username);
            ("user_id", field "id" user);
            ("followers_count", field "count" (child "edge_followed_by" user));
            ("following_count", field "count" (child "edge_follow" user));
            ("full_name", field "full_name" user);
            ("is_private", field "is_private" user);
            ("is_verified", field "is_verified" user);
            ("profile_pic_url",
             if truthy pic_hd then pic_hd else field "profile_pic_url" user);
            ("raw", PDict d);
            ("status", PStr "ok");
            ("proxy", proxy_url)]
  /\ (lookup_item "user" (child "data" d) = None ->
      fst (fetch_profile repr username headers timeout proxy_config client_get served)
      = Return [("username", PStr username);
                ("user_id", PNone);
                ("followers_count", PNone);
                ("following_count", PNone);
                ("full_name", PNone);
                ("is_private", PNone);
                ("is_verified", PNone);
                ("profile_pic_url", PNone);
                ("raw", PDict d);
                ("status", PStr "ok");
                ("proxy", proxy_url)]).
Proof.
  intros Hget Hstatus Hjson Herr Hshape user pic_hd.
  assert (Hfetch :
    fst (fetch_profile repr username headers timeout proxy_config client_get served)
    = success_record username proxy_url (PDict d)).
  { rewrite fetch_profile_unfold. cbn [fst]. unfold fetch_via. fold req.
    rewrite Hget. unfold on_response, on_ok_response. rewrite Hstatus, Hjson.
    cbn [Z.eqb Pos.eqb negb]. unfold get. cbn [get_or bind].
    fold (field "error" d). rewrite Herr. reflexivity. }
  rewrite Hfetch, (success_record_shape username proxy_url d Hshape).
  fold user. fold pic_hd. split; [reflexivity |].
  intros Hmissing. subst pic_hd.
  assert (Huser : user = []) by (unfold user, child at 1; rewrite Hmissing; reflexivity).
  rewrite Huser. reflexivity.
Qed.

(** C5, amended.  For a 200 response whose body is an object with a truthy
    error entry, the result is the error record whose text shows that entry
    and whose status_code is the body's status_code entry, 500 when the body
    has none. *)
Theorem fetch_profile_embedded_error (resp : response) (d : dict) :
  client_get req = Return resp ->
  status_code resp = 200 ->
  json resp = Return (PDict d) ->
  truthy (field "error" d) = true ->
  fst (fetch_profile repr username headers timeout proxy_config client_get served)
  = Return [("username", PStr username);
            ("error", PStr ("Failed to fetch user details: "
                            +:+ str_of repr (field "error" d)));
            ("status_code", default (PInt 500) (lookup_item "status_code" d));
            ("proxy", proxy_url)].
Proof.
  intros Hget Hstatus Hjson Herr.
  rewrite fetch_profile_unfold. cbn [fst]. unfold fetch_via. fold req.
  rewrite Hget. unfold on_response, on_ok_response. rewrite Hstatus, Hjson.
  cbn [Z.eqb Pos.eqb negb]. unfold get. cbn [get_or bind].
  fold (field "error" d). rewrite Herr.
  unfold getitem. rewrite (truthy_field_present _ _ Herr). reflexivity.
Qed.

(** C6.  When the request raises, the result is an error record with the
    username, a text and the proxy URL of the request, and no status_code.
    Five kinds: the text names the kind for a connect timeout, a connect
    error, a write timeout and a read timeout, and is the text of the
    exception for every other one. *)
Theorem fetch_profile_transport_failure (exc : pyexn) :
  client_get req = Raise exc ->
  exists msg,
    let r := [("username", PStr username); ("error", PStr msg);
              ("proxy", req_proxy req)] in
    fst (fetch_profile repr username headers timeout proxy_config client_get served)
    = Return r
    /\ lookup_item "error" r = Some (PStr msg)
    /\ lookup_item "proxy" r = Some (req_proxy req)
    /\ lookup_item "status_code" r = None
    /\ lookup_item "status" r = None
    /\ (exn_class_of exc = ConnectTimeout -> msg = "Proxy connect timeout")
    /\ (exn_class_of exc = ConnectError -> msg = "Proxy connect error")
    /\ (exn_class_of exc = WriteTimeout -> msg = "Proxy write timeout")
    /\ (exn_class_of exc = ReadTimeout -> msg = "Proxy read timeout")
    /\ (uncategorized exc -> msg = exn_msg exc).
Proof.
  intros Hget.
  destruct (on_transport_error_text username proxy_url exc) as (msg & Hrec & Htexts).
  exists msg. cbn zeta. split; [| repeat (split; [reflexivity |]); exact Htexts].
  rewrite fetch_profile_unfold. cbn [fst]. unfold fetch_via. fold req.
  rewrite Hget, Hrec. reflexivity.
Qed.

(** C10, amended.  For a 200 response whose body is an object with an error
    entry bound to a falsy value, the embedded-error branch is not taken:
    the outcome is that of the success path, so a result that is returned
    has status "ok" and no error, and one is returned whenever data,
    data.user, edge_followed_by and edge_follow are each absent or
    objects. *)
Theorem fetch_profile_falsy_error (resp : response) (d : dict) (e : pyval) :
  client_get req = Return resp ->
  status_code resp = 200 ->
  json resp = Return (PDict d) ->
  lookup_item "error" d = Some e ->
  truthy e = false ->
  let outcome :=
    fst (fetch_profile repr username headers timeout proxy_config client_get served) in
  outcome = success_record username proxy_url (PDict d)
  /\ (forall r, outcome = Return r -> status_ok r /\ lookup_item "error" r = None)
  /\ (levels_well_shaped d = true -> exists r, outcome = Return r /\ status_ok r).
Proof.
  intros Hget Hstatus Hjson Hkey Hfalsy outcome.
  assert (Hfetch : outcome = success_record username proxy_url (PDict d)).
  { unfold outcome. rewrite fetch_profile_unfold. cbn [fst]. unfold fetch_via. fold req.
    rewrite Hget. unfold on_response, on_ok_response. rewrite Hstatus, Hjson.
    cbn [Z.eqb Pos.eqb negb]. unfold get. cbn [get_or bind].
    rewrite Hkey. cbn [from_option id]. rewrite Hfalsy. reflexivity. }
  split; [exact Hfetch |]. rewrite Hfetch. split.
  - intros r Hr. apply success_record_marks in Hr. unfold status_ok. tauto.
  - intros Hshape. rewrite (success_record_shape username proxy_url d Hshape).
    eexists. split; reflexivity.
Qed.

End FetchProfileClaims.

(** ** The scheduler of run_scrape *)

Lemma count_slots_insert (ts : list task) (i : nat) (t t' : task) :
  ts !! i = Some t ->
  (count_slots (<[i := t']> ts) + (if holds_slot t then 1 else 0)
   = count_slots ts + (if holds_slot t' then 1 else 0))%nat.
Proof.
  revert i. induction ts as [| t0 ts IH]; intros [| i] H; try discriminate.
  - injection H as ->. simpl. lia.
  - simpl in H |- *. specialize (IH i H). lia.
Qed.

Lemma collect_lookup (ts : list task) (rs : list dict) :
  collect ts = Some rs ->
  length rs = length ts
  /\ forall i, ts !! i = (fun r => Done (Return r)) <$> rs !! i.
Proof.
  revert rs. induction ts as [| t ts IH]; intros rs H.
  - injection H as <-. split; [reflexivity | intros []; reflexivity].
  - cbn in H. destruct t as [| k | [r | e]]; try discriminate.
    destruct (collect ts) as [rs' |]; [| discriminate].
    injection H as <-. destruct (IH rs' eq_refl) as [Hlen Hlook].
    split; [cbn; lia |]. intros [| i]; [reflexivity | apply Hlook].
Qed.

Lemma collect_all_returned (ts : list task) :
  (forall i t, ts !! i = Some t -> exists r, t = Done (Return r)) ->
  exists rs, collect ts = Some rs.
Proof.
  induction ts as [| t ts IH]; intros H; [eexists; reflexivity |].
  destruct (H 0%nat t eq_refl) as [r ->].
  destruct IH as [rs Hrs]; [intros i t' Ht'; exact (H (S i) t' Ht') |].
  exists (r :: rs). cbn. rewrite Hrs. reflexivity.
Qed.

Section RunScrapeFacts.

Variable repr : pyval -> string.
Variable usernames : list string.
Variable headers : list (string * string).
Variable timeout : Timeout.
Variable proxy_config : option ProxyConfiguration.
Variable max_concurrency : option Z.
Variable net : nat -> transport.

Local Abbreviation step1 := (step repr usernames headers timeout proxy_config net).
Local Abbreviation run := (exec repr usernames headers timeout proxy_config net).
Local Abbreviation initial := (start usernames max_concurrency).
Local Abbreviation limit := (concurrency_limit max_concurrency).
Local Abbreviation fetched i u k :=
  (fst (fetch_profile repr u headers timeout proxy_config (net i) k)).
Local Abbreviation sound :=
  (sound repr usernames headers timeout proxy_config max_concurrency net).
Local Abbreviation sound_length :=
  (sound_length repr usernames headers timeout proxy_config max_concurrency net).
Local Abbreviation sound_done :=
  (sound_done repr usernames headers timeout proxy_config max_concurrency net).
Local Abbreviation sound_raised :=
  (sound_raised repr usernames headers timeout proxy_config max_concurrency net).

Lemma step_Acquire (i : nat) (s s' : sched) :
  step1 (Acquire i) s = Some s' ->
  exists u,
    tasks s !! i = Some Waiting /\ usernames !! i = Some u /\ 0 < sem_value s
    /\ s' = {| sem_value := sem_value s - 1;
               proxy_served := snd (resolve_proxy proxy_config (proxy_served s));
               tasks := <[i := InFlight (proxy_served s)]> (tasks s);
               sent := sent s ++ [build_request u headers timeout
                                    (fst (resolve_proxy proxy_config (proxy_served s)))];
               raised := raised s |}.
Proof.
  cbn. destruct (tasks s !! i) as [[| k | r] |]; try discriminate.
  destruct (usernames !! i) as [u |]; [| discriminate].
  destruct (0 <? sem_value s) eqn:Hsem; [| discriminate].
  destruct (resolve_proxy proxy_config (proxy_served s)) as [proxy_url served'].
  intros [= <-]. exists u. repeat split. lia.
Qed.

Lemma step_Finish (i : nat) (s s' : sched) :
  step1 (Finish i) s = Some s' ->
  exists u k,
    tasks s !! i = Some (InFlight k) /\ usernames !! i = Some u
    /\ s' = {| sem_value := sem_value s + 1;
               proxy_served := proxy_served s;
               tasks := <[i := Done (fetched i u k)]> (tasks s);
               sent := sent s;
               raised := match raised s, fetched i u k with
                         | None, Raise e => Some e
                         | first, _ => first
                         end |}.
Proof.
  cbn. destruct (tasks s !! i) as [[| k | r] |]; try discriminate.
  destruct (usernames !! i) as [u |]; [| discriminate].
  intros [= <-]. exists u, k. repeat split.
Qed.



(** A property that every step keeps holds along every schedule. *)
Lemma exec_invariant (P : sched -> Prop) :
  (forall ev s s', P s -> step1 ev s = Some s' -> P s') ->
  forall schedule s s', P s -> run schedule s = Some s' -> P s'.
Proof.
  intros Hstep. induction schedule as [| ev rest IH]; intros s s' HP H; cbn in H.
  - injection H as <-. exact HP.
  - destruct (step1 ev s) as [s1 |] eqn:Hs1; [| discriminate]. eauto.
Qed.

Lemma count_slots_waiting (n : list string) :
  count_slots (map (fun _ => Waiting) n) = 0%nat.
Proof. induction n; [reflexivity | exact IHn]. Qed.

Lemma start_waiting (served i : nat) (t : task) :
  tasks (initial served) !! i = Some t -> t = Waiting.
Proof.
  cbn. rewrite list_lookup_fmap. destruct (usernames !! i); cbn; congruence.
Qed.

Lemma sound_start (served : nat) : sound (initial served).
Proof.
  split.
  - cbn. apply length_map.
  - cbn. unfold concurrency_limit. lia.
  - unfold in_flight. cbn [tasks sem_value start]. rewrite count_slots_waiting. lia.
  - intros i r H. apply start_waiting in H. discriminate.
  - cbn [raised start]. intros i r H. apply start_waiting in H. discriminate.
Qed.

Lemma sound_step (ev : event) (s s' : sched) :
  sound s -> step1 ev s = Some s' -> sound s'.
Proof.
  intros [Hlen Hfree Hslots Hdone Hraised] Hstep. destruct ev as [i | i].
  - apply step_Acquire in Hstep as (u & Hi & Hu & Hsem & ->).
    pose proof (count_slots_insert _ i _ (InFlight (proxy_served s)) Hi) as Hcount.
    cbn in Hcount. split; cbn [tasks sem_value raised].
    + rewrite length_insert. exact Hlen.
    + lia.
    + unfold in_flight in *. cbn [tasks]. lia.
    + intros j r Hj. destruct (decide (i = j)) as [<- | Hne].
      * rewrite list_lookup_insert_eq in Hj by (eapply lookup_lt_Some; eauto).
        discriminate.
      * rewrite list_lookup_insert_ne in Hj by exact Hne. eauto.
    + destruct (raised s) as [e |].
      * destruct Hraised as [j Hj]. exists j.
        rewrite list_lookup_insert_ne; [exact Hj | congruence].
      * intros j r Hj. destruct (decide (i = j)) as [<- | Hne].
        -- rewrite list_lookup_insert_eq in Hj by (eapply lookup_lt_Some; eauto).
           discriminate.
        -- rewrite list_lookup_insert_ne in Hj by exact Hne. eauto.
  - apply step_Finish in Hstep as (u & k & Hi & Hu & ->).
    pose proof (count_slots_insert _ i _ (Done (fetched i u k)) Hi) as Hcount.
    pose proof (lookup_lt_Some _ _ _ Hi) as Hlt.
    cbn in Hcount. split; cbn [tasks sem_value raised].
    + rewrite length_insert. exact Hlen.
    + lia.
    + unfold in_flight in *. cbn [tasks]. lia.
    + intros j r Hj. destruct (decide (i = j)) as [<- | Hne].
      * rewrite list_lookup_insert_eq in Hj by exact Hlt.
        injection Hj as <-. eauto.
      * rewrite list_lookup_insert_ne in Hj by exact Hne. eauto.
    + destruct (raised s) as [e |].
      * destruct Hraised as [j Hj]. exists j.
        rewrite list_lookup_insert_ne; [exact Hj | congruence].
      * destruct (fetched i u k) as [d | e] eqn:Hr.
        -- intros j r Hj. destruct (decide (i = j)) as [<- | Hne].
           ++ rewrite list_lookup_insert_eq in Hj by exact Hlt.
              injection Hj as <-. eauto.
           ++ rewrite list_lookup_insert_ne in Hj by exact Hne. eauto.
        -- exists i. rewrite list_lookup_insert_eq by exact Hlt. reflexivity.
Qed.

Lemma sound_exec (served : nat) (schedule : list event) (s : sched) :
  run schedule (initial served) = Some s -> sound s.
Proof.
  apply (exec_invariant sound); [apply sound_step | apply sound_start].
Qed.


Lemma count_slots_positive (ts : list task) :
  (0 < count_slots ts)%nat -> exists i k, ts !! i = Some (InFlight k).
Proof.
  induction ts as [| t ts IH]; simpl; [lia |]. intros H.
  destruct t as [| k | r]; simpl in H.
  - destruct (IH H) as (i & k & Hi). exists (S i), k. exact Hi.
  - exists 0%nat, k. reflexivity.
  - destruct (IH H) as (i & k & Hi). exists (S i), k. exact Hi.
Qed.

(** No state is stuck: a fetch in flight can finish, a waiting task can
    enter as soon as a slot is free, and when no slot is free some fetch is
    in flight. *)
Lemma sound_progress (s : sched) :
  sound s ->
  (forall i k, tasks s !! i = Some (InFlight k) -> is_Some (step1 (Finish i) s))
  /\ (forall i, tasks s !! i = Some Waiting -> 0 < sem_value s ->
      is_Some (step1 (Acquire i) s))
  /\ (sem_value s = 0 -> exists i k, tasks s !! i = Some (InFlight k)).
Proof.
  intros [Hlen Hfree Hslots _ _]. repeat split.
  - intros i k Hi. pose proof (lookup_lt_Some _ _ _ Hi) as Hlt.
    rewrite Hlen in Hlt. apply lookup_lt_is_Some_2 in Hlt as [u Hu].
    cbn. rewrite Hi, Hu. eauto.
  - intros i Hi Hsem. pose proof (lookup_lt_Some _ _ _ Hi) as Hlt.
    rewrite Hlen in Hlt. apply lookup_lt_is_Some_2 in Hlt as [u Hu].
    cbn. rewrite Hi, Hu. apply Z.ltb_lt in Hsem. rewrite Hsem.
    destruct (resolve_proxy proxy_config (proxy_served s)). eauto.
  - intros Hzero. apply count_slots_positive. unfold in_flight in Hslots.
    unfold concurrency_limit in Hslots. lia.
Qed.

(** Each event uses up one of the events that the tasks have before them:
    a schedule of the program has at most two events per username. *)
Lemma remaining_insert (ts : list task) (i : nat) (t t' : task) :
  ts !! i = Some t ->
  (remaining (<[i := t']> ts) + remaining [t] = remaining ts + remaining [t'])%nat.
Proof.
  revert i. induction ts as [| t0 ts IH]; intros [| i] H; try discriminate.
  - injection H as ->. simpl. destruct t, t'; simpl; lia.
  - simpl in H |- *. specialize (IH i H).
    destruct t0, t, t'; simpl in IH |- *; lia.
Qed.

Lemma remaining_waiting (n : list string) :
  remaining (map (fun _ => Waiting) n) = (2 * length n)%nat.
Proof. induction n; simpl in *; lia. Qed.

Lemma exec_remaining (schedule : list event) (s s' : sched) :
  run schedule s = Some s' ->
  (length schedule + remaining (tasks s') = remaining (tasks s))%nat.
Proof.
  revert s. induction schedule as [| ev rest IH]; intros s H; cbn in H.
  - injection H as <-. reflexivity.
  - destruct (step1 ev s) as [s1 |] eqn:Hs1; [| discriminate].
    specialize (IH s1 H). destruct ev as [i | i].
    + apply step_Acquire in Hs1 as (u & Hi & _ & _ & ->).
      pose proof (remaining_insert _ i _ (InFlight (proxy_served s)) Hi) as Hr.
      cbn [tasks] in IH. simpl in Hr |- *. lia.
    + apply step_Finish in Hs1 as (u & k & Hi & _ & ->).
      pose proof (remaining_insert _ i _ (Done (fetched i u k)) Hi) as Hr.
      cbn [tasks] in IH. simpl in Hr |- *. lia.
Qed.

Lemma schedule_length (served : nat) (schedule : list event) (s : sched) :
  run schedule (initial served) = Some s ->
  (length schedule + remaining (tasks s) = 2 * length usernames)%nat.
Proof.
  intros H. apply exec_remaining in H. cbn [tasks start] in H.
  rewrite remaining_waiting in H. exact H.
Qed.


(** [gather] is over once every task is: with the first exception, or with
    the list of the results. *)
Lemma gather_all_done (s : sched) :
  sound s ->
  (forall i t, tasks s !! i = Some t -> exists r, t = Done r) ->
  exists outcome, gather s = Some outcome.
Proof.
  intros Hsound Hall. unfold gather.
  pose proof (sound_raised s Hsound) as Hraised.
  destruct (raised s) as [e |]; [eauto |].
  destruct (collect_all_returned (tasks s)) as [rs ->]; [| eauto].
  intros i t Ht. destruct (Hall i t Ht) as [r ->].
  destruct (Hraised i r Ht) as [d ->]. eauto.
Qed.



(** When [run_scrape] returns, along any schedule, it returns one result
    per username, in the order of the usernames, each under its username. *)
Lemma run_scrape_in_order (served : nat) (schedule : list event) (v : pyval) :
  run_scrape repr usernames headers timeout proxy_config max_concurrency net served
    schedule = Some (Return v) ->
  exists rs : list dict,
    v = PDict [("results", PList (map PDict rs))]
    /\ length rs = length usernames
    /\ forall i u, usernames !! i = Some u ->
                   exists r : dict, rs !! i = Some r
                             /\ lookup_item "username" r = Some (PStr u).
Proof.
  unfold run_scrape.
  destruct (run schedule (initial served)) as [s |] eqn:Hrun; [| discriminate].
  pose proof (sound_exec _ _ _ Hrun) as Hsound.
  unfold gather. destruct (raised s); [discriminate |].
  destruct (collect (tasks s)) as [rs |] eqn:Hcollect; [| discriminate].
  cbn. intros [= <-]. exists rs. split; [reflexivity |].
  destruct (collect_lookup _ _ Hcollect) as [Hlen Hlook].
  pose proof (sound_length s Hsound) as Htasks.
  split; [congruence |].
  intros i u Hu. pose proof (lookup_lt_Some _ _ _ Hu) as Hlt.
  destruct (lookup_lt_is_Some_2 rs i) as [r Hr]; [lia |].
  exists r. split; [exact Hr |].
  specialize (Hlook i). rewrite Hr in Hlook. cbn in Hlook.
  destruct (sound_done s Hsound i _ Hlook) as (u' & k & Hu' & Hfetched).
  assert (u' = u) as -> by congruence.
  apply (fetch_profile_username repr u headers timeout proxy_config (net i) k).
  symmetry. exact Hfetched.
Qed.






End RunScrapeFacts.

(** Two networks, one schedule: the free slots and the phase of every task
    are the same at every point.  What a fetch answers, or that it fails,
    changes nothing in what the other tasks may do and when. *)
Section TwoNetworks.

Variable repr : pyval -> string.
Variable usernames : list string.
Variable headers : list (string * string).
Variable timeout : Timeout.
Variable proxy_config : option ProxyConfiguration.
Variables net1 net2 : nat -> transport.



End TwoNetworks.

(** C1, the defect at work.  One username whose 200 response has the body
    [[]]: the fetch raises at line 62, [gather] passes the exception on, and
    [run_scrape] raises instead of returning a result list; no schedule
    makes it return one. *)
Theorem run_scrape_raises_on_list_body :
  let net : nat -> transport := fun _ => answers_200 (PList []) in
  run_scrape repr_elided ["alice"] BASE_HEADERS HTTPX_TIMEOUT None (Some 10) net 0
    [Acquire 0; Finish 0]
  = Some (Raise (mk_exn AttributeError "'list' object has no attribute 'get'"))
  /\ forall served schedule v,
       run_scrape repr_elided ["alice"] BASE_HEADERS HTTPX_TIMEOUT None (Some 10) net
         served schedule <> Some (Return v).
Proof.
  intros net. split; [reflexivity |].
  intros served schedule v. unfold run_scrape.
  destruct (exec _ _ _ _ _ _ schedule _) as [s |] eqn:Hrun; [| discriminate].
  pose proof (sound_exec _ _ _ _ _ _ _ _ _ _ Hrun) as Hsound.
  unfold gather. destruct (raised s); [discriminate |].
  destruct (collect (tasks s)) as [rs |] eqn:Hcollect; [| discriminate].
  destruct (collect_lookup _ _ Hcollect) as [Hlen Hlook].
  destruct Hsound as [Hone _ _ Hdone _]. cbn in Hone.
  destruct rs as [| r rs]; [cbn in Hlen; lia |].
  specialize (Hlook 0%nat). cbn in Hlook.
  destruct (Hdone 0%nat _ Hlook) as (u & k & Hu & Hr).
  injection Hu as <-. discriminate Hr.
Qed.

(** C8.  The capacity of the semaphore is the configured maximum, and 1 when
    that is 0 or negative; a caller that leaves the maximum out gets 10. *)
Theorem concurrency_limit_floor (usernames : list string) (max_concurrency : option Z)
    (served : nat) :
  let capacity := sem_value (start usernames max_concurrency served) in
  capacity = Z.max 1 (default 10 max_concurrency)
  /\ (forall m, max_concurrency = Some m -> m <= 0 -> capacity = 1)
  /\ (forall m, max_concurrency = Some m -> 1 <= m -> capacity = m)
  /\ (max_concurrency = None -> capacity = 10).
Proof.
  cbn. unfold concurrency_limit. repeat split.
  - intros m -> Hm. cbn. lia.
  - intros m -> Hm. cbn. lia.
  - intros ->. reflexivity.
Qed.


(** ** main: the input boundary *)

Lemma lstrip_blank (s : string) : blank (lstrip s) = blank s.
Proof.
  induction s as [| c s IH]; [reflexivity |]. simpl.
  destruct (is_space c) eqn:Hc; [exact IH |]. simpl. rewrite Hc. reflexivity.
Qed.

Lemma rstrip_empty (s : string) : rstrip s = "" <-> blank s = true.
Proof.
  induction s as [| c s IH]; [simpl; tauto |]. simpl.
  destruct (rstrip s) as [| c' r].
  - destruct (is_space c); simpl; [tauto |]. split; discriminate.
  - split; [discriminate |]. intros H. apply andb_true_iff in H as [_ H].
    apply IH in H. discriminate.
Qed.

(** A string strips to the empty one exactly when it is whitespace only. *)
Lemma strip_empty (s : string) : strip s = "" <-> blank s = true.
Proof. unfold strip. rewrite rstrip_empty, lstrip_blank. tauto. Qed.

Lemma truthy_strip (s : string) : truthy (PStr (strip s)) = negb (blank s).
Proof.
  simpl. destruct (blank s) eqn:Hb.
  - apply strip_empty in Hb. rewrite Hb. reflexivity.
  - destruct (strip s) eqn:Hs; [| reflexivity].
    apply strip_empty in Hs. congruence.
Qed.

(** The usernames that line 111 keeps: the strings that are not blank,
    stripped. *)
Lemma clean_usernames_elem (raw : list pyval) (u : string) :
  u ∈ clean_usernames raw <->
  exists s, PStr s ∈ raw /\ blank s = false /\ u = strip s.
Proof.
  induction raw as [| v raw IH].
  - simpl. split; [intros H; inversion H | intros (s & H & _); inversion H].
  - assert (Hskip : (forall s, v = PStr s -> blank s = true) ->
                    ((exists s, PStr s ∈ v :: raw /\ blank s = false /\ u = strip s)
                     <-> exists s, PStr s ∈ raw /\ blank s = false /\ u = strip s)).
    { intros Hv. split; intros (s & Hs & Hb & Hu); exists s.
      - apply elem_of_cons in Hs as [Hs | Hs]; [| tauto].
        symmetry in Hs. apply Hv in Hs. congruence.
      - split; [apply elem_of_cons; tauto | tauto]. }
    destruct v as [| b | n | f | s0 | l | d]; cbn [clean_usernames];
      try (rewrite IH; symmetry; apply Hskip; intros; discriminate).
    rewrite truthy_strip. destruct (blank s0) eqn:Hb0; cbn [negb].
    + rewrite IH. symmetry. apply Hskip. intros s [= <-]. exact Hb0.
    + rewrite elem_of_cons, IH. split.
      * intros [-> | (s & Hs & Hb & Hu)].
        -- exists s0. split; [apply elem_of_cons; tauto | tauto].
        -- exists s. split; [apply elem_of_cons; tauto | tauto].
      * intros (s & Hs & Hb & Hu). apply elem_of_cons in Hs as [[= <-] | Hs]; eauto.
Qed.

Lemma read_usernames_list (d : dict) (raw : list pyval) :
  lookup_item "usernames" d = Some (PList raw) ->
  read_usernames (PDict d) = Return (clean_usernames raw).
Proof.
  intros Hraw. unfold read_usernames, py_or.
  destruct d as [| kv d]; [discriminate |]. cbn [truthy].
  unfold get. cbn [get_or bind]. rewrite Hraw. cbn [from_option id].
  destruct raw; reflexivity.
Qed.

(** * The statements at concrete inputs *)

(** C2 as stated fails: an exception that no named handler takes, with an
    empty text (httpx raises such ones), gives a result with no status and
    an empty error.  *)
Lemma fetch_profile_empty_error_text :
  let r := [("username", PStr "alice"); ("error", PStr ""); ("proxy", PNone)] in
  fetch_profile repr_elided "alice" BASE_HEADERS HTTPX_TIMEOUT None
    (fails_with (OtherError "ReadError") "") 0 = (Return r, 0%nat)
  /\ ~ exactly_one_mark r.
Proof.
  split; [reflexivity |].
  intros [[Hok _] | [_ (msg & Hmsg & Hne)]].
  - discriminate Hok.
  - injection Hmsg as <-. congruence.
Qed.

Lemma fetch_profile_one_mark_witness :
  exists r,
    fst (fetch_profile repr_elided "bob" BASE_HEADERS HTTPX_TIMEOUT (Some rotating)
           (fun _ => Return {| status_code := 401; json := Raise (mk_exn TypeError "") |})
           0) = Return r
    /\ lookup_item "status" r = None
    /\ lookup_item "error" r = Some (PStr "Unauthorized error").
Proof.
  eexists. split; [reflexivity |].
  destruct (fetch_profile_one_mark repr_elided "bob" BASE_HEADERS HTTPX_TIMEOUT
              (Some rotating)
              (fun _ => Return {| status_code := 401; json := Raise (mk_exn TypeError "") |})
              0 _ eq_refl) as [[Hok _] | [Hstatus _]].
  - discriminate Hok.
  - split; [exact Hstatus | reflexivity].
Defined.

Lemma fetch_profile_raises_on_non_object_witness :
  is_dict (PList []) = false
  /\ fst (fetch_profile repr_elided "alice" BASE_HEADERS HTTPX_TIMEOUT None
            (answers_200 (PList [])) 0)
     = Raise (mk_exn AttributeError "'list' object has no attribute 'get'").
Proof.
  split; [reflexivity |].
  exact (fetch_profile_raises_on_non_object repr_elided "alice" BASE_HEADERS
           HTTPX_TIMEOUT None (answers_200 (PList [])) 0
           {| status_code := 200; json := Return (PList []) |} (PList [])
           eq_refl eq_refl eq_refl eq_refl).
Defined.

(** C4 as stated fails: the body that the endpoint gives for a username it
    does not know, with the user entry bound to null, carries no error, and
    no success record is built: line 73 raises. *)
Lemma fetch_profile_null_user_raises :
  let d := [("data", PDict [("user", PNone)]); ("status", PStr "ok")] in
  lookup_item "error" d = None
  /\ fetch_profile repr_elided "nobody" BASE_HEADERS HTTPX_TIMEOUT None
       (answers_200 (PDict d)) 0
     = (Raise (mk_exn AttributeError "'NoneType' object has no attribute 'get'"), 0%nat).
Proof. split; reflexivity. Qed.

Lemma fetch_profile_success_record_witness :
  let user := [("id", PStr "42"); ("edge_followed_by", PDict [("count", PInt 7)]);
               ("profile_pic_url_hd", PStr ""); ("profile_pic_url", PStr "http://pic")] in
  let d := [("data", PDict [("user", PDict user)])] in
  fst (fetch_profile repr_elided "alice" BASE_HEADERS HTTPX_TIMEOUT (Some rotating)
         (answers_200 (PDict d)) 2)
  = Return [("username", PStr "alice");
            ("user_id", PStr "42");
            ("followers_count", PInt 7);
            ("following_count", PNone);
            ("full_name", PNone);
            ("is_private", PNone);
            ("is_verified", PNone);
            ("profile_pic_url", PStr "http://pic");
            ("raw", PDict d);
            ("status", PStr "ok");
            ("proxy", PStr "http://proxy-2.local:8000")].
Proof.
  intros user d.
  exact (proj1 (fetch_profile_success_record repr_elided "alice" BASE_HEADERS
                  HTTPX_TIMEOUT (Some rotating) (answers_200 (PDict d)) 2
                  {| status_code := 200; json := Return (PDict d) |} d
                  eq_refl eq_refl eq_refl eq_refl eq_refl)).
Defined.

(** C5 as stated fails: a body with an error entry that is the empty string
    and a status code is not taken for an error; the result is a success
    record, without the status code. *)
Lemma fetch_profile_empty_error_is_success :
  let d := [("error", PStr ""); ("status_code", PInt 404)] in
  lookup_item "error" d = Some (PStr "")
  /\ fetch_profile repr_elided "alice" BASE_HEADERS HTTPX_TIMEOUT None
       (answers_200 (PDict d)) 0
     = (Return [("username", PStr "alice");
                ("user_id", PNone);
                ("followers_count", PNone);
                ("following_count", PNone);
                ("full_name", PNone);
                ("is_private", PNone);
                ("is_verified", PNone);
                ("profile_pic_url", PNone);
                ("raw", PDict d);
                ("status", PStr "ok");
                ("proxy", PNone)], 0%nat).
Proof. split; reflexivity. Qed.

Lemma fetch_profile_embedded_error_witness :
  let d := [("error", PStr "User not found")] in
  fst (fetch_profile repr_elided "alice" BASE_HEADERS HTTPX_TIMEOUT None
         (answers_200 (PDict d)) 0)
  = Return [("username", PStr "alice");
            ("error", PStr "Failed to fetch user details: User not found");
            ("status_code", PInt 500);
            ("proxy", PNone)].
Proof.
  intros d.
  exact (fetch_profile_embedded_error repr_elided "alice" BASE_HEADERS HTTPX_TIMEOUT
           None (answers_200 (PDict d)) 0
           {| status_code := 200; json := Return (PDict d) |} d
           eq_refl eq_refl eq_refl eq_refl).
Defined.

Lemma fetch_profile_transport_failure_witness :
  fst (fetch_profile repr_elided "alice" BASE_HEADERS HTTPX_TIMEOUT (Some rotating)
         (fails_with ConnectTimeout "") 3)
  = Return [("username", PStr "alice"); ("error", PStr "Proxy connect timeout");
            ("proxy", PStr "http://proxy-3.local:8000")].
Proof.
  destruct (fetch_profile_transport_failure repr_elided "alice" BASE_HEADERS
              HTTPX_TIMEOUT (Some rotating) (fails_with ConnectTimeout "") 3
              (mk_exn ConnectTimeout "") eq_refl)
    as (msg & Hr & _ & _ & _ & _ & Hct & _).
  rewrite Hr, (Hct eq_refl). reflexivity.
Defined.

(** C10 as stated fails: an error entry bound to null, and a user entry
    bound to null: no success record is returned, line 73 raises. *)
Lemma fetch_profile_falsy_error_null_user :
  let d := [("error", PNone); ("data", PDict [("user", PNone)])] in
  lookup_item "error" d = Some PNone
  /\ truthy PNone = false
  /\ fetch_profile repr_elided "nobody" BASE_HEADERS HTTPX_TIMEOUT None
       (answers_200 (PDict d)) 0
     = (Raise (mk_exn AttributeError "'NoneType' object has no attribute 'get'"), 0%nat).
Proof. repeat split; reflexivity. Qed.

Lemma fetch_profile_falsy_error_witness :
  let d := [("error", PInt 0); ("data", PDict [])] in
  exists r,
    fst (fetch_profile repr_elided "alice" BASE_HEADERS HTTPX_TIMEOUT None
           (answers_200 (PDict d)) 0) = Return r
    /\ status_ok r.
Proof.
  intros d.
  exact (proj2 (proj2 (fetch_profile_falsy_error repr_elided "alice" BASE_HEADERS
                         HTTPX_TIMEOUT None (answers_200 (PDict d)) 0
                         {| status_code := 200; json := Return (PDict d) |} d (PInt 0)
                         eq_refl eq_refl eq_refl eq_refl eq_refl)) eq_refl).
Defined.

Lemma concurrency_limit_floor_witness :
  sem_value (start ["alice"; "bob"] (Some (-3)) 0) = 1
  /\ sem_value (start ["alice"; "bob"] (Some 0) 0) = 1
  /\ sem_value (start ["alice"; "bob"] None 0) = 10.
Proof.
  split; [| split].
  - apply (proj1 (proj2 (concurrency_limit_floor ["alice"; "bob"] (Some (-3)) 0)) (-3));
      [reflexivity | lia].
  - apply (proj1 (proj2 (concurrency_limit_floor ["alice"; "bob"] (Some 0) 0)) 0);
      [reflexivity | lia].
  - apply (proj2 (proj2 (proj2 (concurrency_limit_floor ["alice"; "bob"] None 0)))).
    reflexivity.
Defined.


(** The scenario of two usernames: a full user object for the first, 401 for
    the second, which comes back first. *)
Example main_alice_bob :
  let user := [("id", PStr "1"); ("edge_followed_by", PDict [("count", PInt 10)]);
               ("edge_follow", PDict [("count", PInt 3)]); ("full_name", PStr "Alice");
               ("is_private", PBool false); ("is_verified", PBool true);
               ("profile_pic_url_hd", PStr "http://hd");
               ("profile_pic_url", PStr "http://sd")] in
  let body := PDict [("data", PDict [("user", PDict user)]); ("status", PStr "ok")] in
  let net : nat -> transport := fun i =>
    match i with
    | O => answers_200 body
    | _ => fun _ => Return {| status_code := 401;
                              json := Raise (mk_exn (OtherError "JSONDecodeError") "") |}
    end in
  OUTPUT <$> from_option (fun out => match out with Return run => Some run | Raise _ => None end) None
    (main repr_elided
       (PDict [("usernames", PList [PStr "alice"; PInt 3; PStr " bob "; PStr "  "])])
       (Some rotating) net 0 [Acquire 0; Acquire 1; Finish 1; Finish 0])
  = Some (PDict
      [("results",
        PList [PDict [("username", PStr "alice"); ("user_id", PStr "1");
                      ("followers_count", PInt 10); ("following_count", PInt 3);
                      ("full_name", PStr "Alice"); ("is_private", PBool false);
                      ("is_verified", PBool true); ("profile_pic_url", PStr "http://hd");
                      ("raw", body); ("status", PStr "ok");
                      ("proxy", PStr "http://proxy-0.local:8000")];
               PDict [("username", PStr "bob"); ("error", PStr "Unauthorized error");
                      ("status_code", PInt 401);
                      ("proxy", PStr "http://proxy-1.local:8000")]])]).
Proof. reflexivity. Qed.

Example strip_examples :
  strip "  al ice  " = "al ice" /\ strip "   " = "" /\ str_of_int (-401) = "-401".
Proof. repeat split; reflexivity. Qed.

(** * Further properties of the program *)

(** ** fetch_profile: the paths that the claims leave aside *)

Lemma bind_Raise {A B : Type} (m : result A) (k : A -> result B) (e : pyexn) :
  bind m k = Raise e -> m = Raise e \/ exists a, m = Return a /\ k a = Raise e.
Proof. destruct m as [a | e']; simpl; [eauto | intros [= ->]; eauto]. Qed.

Lemma get_or_Raise (v : pyval) (k : string) (dflt : pyval) (e : pyexn) :
  get_or v k dflt = Raise e -> is_dict v = false /\ e = no_attribute v "get".
Proof. destruct v; simpl; intros [= <-]; split; reflexivity. Qed.

(** What the success path can raise: the AttributeError of a [.get] on a
    value that is not an object. *)
Lemma success_record_Raise (username : string) (proxy_url data : pyval) (e : pyexn) :
  success_record username proxy_url data = Raise e ->
  exists v, is_dict v = false /\ e = no_attribute v "get".
Proof.
  unfold success_record, get. intros H.
  repeat match type of H with
         | bind _ _ = Raise _ =>
             apply bind_Raise in H as [H | (? & _ & H)]
         end;
    repeat match type of H with
           | (if ?b then _ else _) = Raise _ => destruct b
           | bind _ _ = Raise _ => apply bind_Raise in H as [H | (? & _ & H)]
           end;
    try discriminate;
    apply get_or_Raise in H; eauto.
Qed.

Lemma success_record_keys (username : string) (proxy_url data : pyval) (r : dict) :
  success_record username proxy_url data = Return r ->
  map fst r = success_keys /\ lookup_item "raw" r = Some data.
Proof.
  unfold success_record. intros H.
  repeat (apply bind_Return in H as (? & _ & H)).
  injection H as <-. split; reflexivity.
Qed.

Section FetchProfileMore.

Variable repr : pyval -> string.
Variable username : string.
Variable headers : list (string * string).
Variable timeout : Timeout.
Variable proxy_config : option ProxyConfiguration.
Variable client_get : transport.
Variable served : nat.

Local Abbreviation the_proxy := (fst (resolve_proxy proxy_config served)).
Local Abbreviation the_request := (build_request username headers timeout the_proxy).
Local Abbreviation outcome :=
  (fst (fetch_profile repr username headers timeout proxy_config client_get served)).

(** X1.  Every result that is returned, of a success or of a failure, has
    the username that was asked for under "username" and the proxy URL that
    this fetch resolved under "proxy": None of Python without a provider,
    the provider's URL of this call otherwise, which is also the proxy of
    the request. *)
Theorem fetch_profile_echo (r : dict) :
  outcome = Return r ->
  lookup_item "username" r = Some (PStr username)
  /\ lookup_item "proxy" r = Some (req_proxy the_request)
  /\ (proxy_config = None -> lookup_item "proxy" r = Some PNone)
  /\ (forall pc, proxy_config = Some pc ->
                 lookup_item "proxy" r = Some (PStr (new_url pc served))).
Proof.
  intros H.
  assert (Hboth : lookup_item "username" r = Some (PStr username)
                  /\ lookup_item "proxy" r = Some the_proxy).
  { rewrite fetch_profile_unfold in H. cbn [fst] in H. unfold fetch_via in H.
    destruct (client_get _) as [resp | exc].
    - apply on_response_cases in H as [(data & _ & H) | (msg & code & -> & _)].
      + apply success_record_marks in H. tauto.
      + destruct (error_record_marks username msg code the_proxy)
          as (Hu & _ & _ & _ & Hp). split; assumption.
    - injection H as <-.
      destruct (on_transport_error_text username the_proxy exc) as (msg & -> & _).
      destruct (error_record_marks username msg None the_proxy)
        as (Hu & _ & _ & _ & Hp). split; assumption. }
  destruct Hboth as [Hu Hp]. repeat split; try assumption.
  - intros ->. exact Hp.
  - intros pc ->. exact Hp.
Qed.

(** X2.  A response whose status is not 200 gives an error record that
    depends on the status alone: the body is never parsed.  The text is
    "Unauthorized error" for 401 and names the status otherwise; the
    status_code of the record is the status of the response. *)
Theorem fetch_profile_non_200 (resp : response) :
  client_get the_request = Return resp ->
  status_code resp <> 200 ->
  outcome =
  Return [("username", PStr username);
          ("error", PStr (if status_code resp =? 401 then "Unauthorized error"
                          else "Failed to fetch user details: "
                               +:+ str_of_int (status_code resp)));
          ("status_code", PInt (status_code resp));
          ("proxy", the_proxy)].
Proof.
  intros Hget Hstatus. rewrite fetch_profile_unfold. cbn [fst]. unfold fetch_via.
  rewrite Hget. unfold on_response.
  destruct (status_code resp =? 401) eqn:H401.
  - apply Z.eqb_eq in H401. rewrite H401. reflexivity.
  - apply Z.eqb_neq in Hstatus. rewrite Hstatus. reflexivity.
Qed.

(** X3.  A 200 response whose body does not parse gives an error record
    with the text of the parser's exception after "Invalid JSON: ", whatever
    the class of that exception, and no status_code. *)
Theorem fetch_profile_invalid_json (resp : response) (exc : pyexn) :
  client_get the_request = Return resp ->
  status_code resp = 200 ->
  json resp = Raise exc ->
  outcome =
  Return [("username", PStr username);
          ("error", PStr ("Invalid JSON: " +:+ exn_msg exc));
          ("proxy", the_proxy)]
  /\ forall r, outcome = Return r -> lookup_item "status_code" r = None.
Proof.
  intros Hget Hstatus Hjson.
  assert (H : outcome = Return [("username", PStr username);
                                ("error", PStr ("Invalid JSON: " +:+ exn_msg exc));
                                ("proxy", the_proxy)]).
  { rewrite fetch_profile_unfold. cbn [fst]. unfold fetch_via.
    rewrite Hget. unfold on_response, on_ok_response. rewrite Hstatus, Hjson.
    reflexivity. }
  split; [exact H |]. intros r Hr. rewrite H in Hr. injection Hr as <-. reflexivity.
Qed.

(** X4.  A result has one of three lists of keys, in this order: username,
    error, proxy; username, error, status_code, proxy; or the eleven keys of
    the success record.  No other key ever appears, and none is repeated. *)
Theorem fetch_profile_keys (r : dict) :
  outcome = Return r ->
  (map fst r = failure_keys false \/ map fst r = failure_keys true
   \/ map fst r = success_keys)
  /\ NoDup (map fst r).
Proof.
  intros H.
  assert (Hkeys : map fst r = failure_keys false \/ map fst r = failure_keys true
                  \/ map fst r = success_keys).
  { rewrite fetch_profile_unfold in H. cbn [fst] in H. unfold fetch_via in H.
    destruct (client_get _) as [resp | exc].
    - apply on_response_cases in H as [(data & _ & H) | (msg & [c |] & -> & _)].
      + apply success_record_keys in H. tauto.
      + right. left. reflexivity.
      + left. reflexivity.
    - injection H as <-.
      destruct (on_transport_error_text username the_proxy exc) as (msg & -> & _).
      left. reflexivity. }
  split; [exact Hkeys |].
  destruct Hkeys as [-> | [-> | ->]]; apply (bool_decide_unpack _); vm_compute; exact I.
Qed.

(** X5.  A result says "ok" only for a 200 response whose body parsed to
    an object without a truthy error entry, and it then keeps that body,
    unchanged, under "raw".  No transport failure, no other status and no
    body that fails to parse ever gives an "ok". *)
Theorem fetch_profile_ok_origin (r : dict) :
  outcome = Return r ->
  status_ok r ->
  exists resp d,
    client_get the_request = Return resp
    /\ status_code resp = 200
    /\ json resp = Return (PDict d)
    /\ truthy (field "error" d) = false
    /\ lookup_item "raw" r = Some (PDict d).
Proof.
  unfold status_ok. rewrite fetch_profile_unfold. cbn [fst]. unfold fetch_via.
  destruct (client_get the_request) as [resp | exc] eqn:Hget.
  2:{ intros [= <-] Hok.
      destruct (on_transport_error_text username the_proxy exc) as (msg & Hrec & _).
      rewrite Hrec in Hok. discriminate Hok. }
  unfold on_response.
  destruct (status_code resp =? 401); [intros [= <-] Hok; discriminate Hok |].
  destruct (status_code resp =? 200) eqn:H200;
    [| intros [= <-] Hok; discriminate Hok].
  apply Z.eqb_eq in H200. cbn [negb]. unfold on_ok_response.
  destruct (json resp) as [data | exc] eqn:Hjson;
    [| intros [= <-] Hok; discriminate Hok].
  intros H Hok. apply bind_Return in H as (err & Herr & H).
  apply get_Return in Herr as (d & -> & ->).
  destruct (truthy (field "error" d)) eqn:Htruthy.
  - apply bind_Return in H as (shown & _ & H).
    apply bind_Return in H as (code & _ & H).
    injection H as <-. discriminate Hok.
  - apply success_record_keys in H as [_ Hraw]. exists resp, d. repeat split; assumption.
Qed.

(** X7.  For a 200 response whose body is an object without a truthy error
    entry, [fetch_profile] returns a result exactly when data, data.user,
    user.edge_followed_by and user.edge_follow are each absent or objects;
    in every other case it raises. *)
Theorem fetch_profile_returns_iff (resp : response) (d : dict) :
  client_get the_request = Return resp ->
  status_code resp = 200 ->
  json resp = Return (PDict d) ->
  truthy (field "error" d) = false ->
  (exists r, outcome = Return r) <-> levels_well_shaped d = true.
Proof.
  intros Hget Hstatus Hjson Herr.
  assert (Hfetch : outcome = success_record username the_proxy (PDict d)).
  { rewrite fetch_profile_unfold. cbn [fst]. unfold fetch_via.
    rewrite Hget. unfold on_response, on_ok_response. rewrite Hstatus, Hjson.
    cbn [Z.eqb Pos.eqb negb]. unfold get. cbn [get_or bind].
    fold (field "error" d). rewrite Herr. reflexivity. }
  rewrite Hfetch. split.
  - intros [r Hr]. revert Hr.
    unfold levels_well_shaped, absent_or_object, child, success_record, get.
    cbn [is_dict get_or bind].
    destruct (lookup_item "data" d) as [[| | | | | | d1] |]; cbn [from_option id get_or bind];
      try discriminate.
    + destruct (lookup_item "user" d1) as [[| | | | | | d2] |];
        cbn [from_option id get_or bind]; try discriminate.
      * destruct (lookup_item "edge_followed_by" d2) as [[] |];
          cbn [from_option id get_or bind]; try discriminate;
          destruct (lookup_item "edge_follow" d2) as [[] |];
          cbn [from_option id get_or bind]; try discriminate; reflexivity.
      * reflexivity.
    + reflexivity.
  - intros Hshape. rewrite (success_record_shape username the_proxy d Hshape). eauto.
Qed.

End FetchProfileMore.

(** ** run_scrape: slots, progress, outcome *)

Lemma count_slots_done (ts : list task) :
  (forall i t, ts !! i = Some t -> exists r, t = Done r) -> count_slots ts = 0%nat.
Proof.
  induction ts as [| t ts IH]; intros H; [reflexivity |].
  destruct (H 0%nat t eq_refl) as [r ->]. simpl. apply IH.
  intros i t' Ht'. exact (H (S i) t' Ht').
Qed.

Lemma remaining_zero (ts : list task) :
  remaining ts = 0%nat -> forall i t, ts !! i = Some t -> exists r, t = Done r.
Proof.
  induction ts as [| t0 ts IH]; intros H i t Ht; [destruct i; discriminate |].
  destruct t0 as [| k | r]; simpl in H; try lia.
  destruct i as [| i]; [injection Ht as <-; eauto | exact (IH H i t Ht)].
Qed.

Lemma collect_pending (ts : list task) :
  collect ts = None ->
  exists i t, ts !! i = Some t /\ forall d, t <> Done (Return d).
Proof.
  induction ts as [| t ts IH]; [discriminate |]. simpl.
  destruct t as [| k | [d | e]];
    try (intros _; exists 0%nat; eexists; split; [reflexivity | discriminate]).
  destruct (collect ts); [discriminate |]. intros _.
  destruct (IH eq_refl) as (i & t & Hi & Ht). exists (S i), t. split; assumption.
Qed.

Lemma collect_returned (ts : list task) (rs : list dict) (i : nat) (t : task) :
  collect ts = Some rs -> ts !! i = Some t -> exists d, t = Done (Return d).
Proof.
  intros Hc Ht. destruct (collect_lookup _ _ Hc) as [_ Hlook].
  rewrite Hlook in Ht. destruct (rs !! i) as [d |]; [| discriminate].
  injection Ht as <-. eauto.
Qed.

Section RunScrapeMore.

Variable repr : pyval -> string.
Variable usernames : list string.
Variable headers : list (string * string).
Variable timeout : Timeout.
Variable proxy_config : option ProxyConfiguration.
Variable max_concurrency : option Z.
Variable net : nat -> transport.

Local Abbreviation step1 := (step repr usernames headers timeout proxy_config net).
Local Abbreviation run := (exec repr usernames headers timeout proxy_config net).
Local Abbreviation initial := (start usernames max_concurrency).
Local Abbreviation limit := (concurrency_limit max_concurrency).
Local Abbreviation scrape :=
  (run_scrape repr usernames headers timeout proxy_config max_concurrency net).

Lemma exec_app (first more : list event) (s : sched) :
  run (first ++ more) s =
  match run first s with
  | Some s' => run more s'
  | None => None
  end.
Proof.
  revert s. induction first as [| ev first IH]; intros s; [reflexivity |].
  cbn [app exec]. destruct (step1 ev s); [apply IH | reflexivity].
Qed.

(** X8.  Slots are conserved for every configured maximum, given or not,
    positive or not: along every schedule the free slots and the fetches in
    flight add up to the capacity, a slot is given back when a fetch ends
    with a result as when it ends with an exception, and once every task is
    over all the slots are free again.  With a maximum of 0 or less the
    fetches run one at a time. *)
Theorem run_scrape_slots (served : nat) (schedule : list event) (s : sched) :
  run schedule (initial served) = Some s ->
  0 <= sem_value s <= limit
  /\ sem_value s + Z.of_nat (in_flight s) = limit
  /\ ((forall i t, tasks s !! i = Some t -> exists r, t = Done r) ->
      sem_value s = limit)
  /\ (forall m, max_concurrency = Some m -> m <= 0 -> (in_flight s <= 1)%nat).
Proof.
  intros Hrun.
  destruct (sound_exec _ _ _ _ _ _ _ _ _ _ Hrun) as [_ Hfree Hslots _ _].
  repeat split; try lia.
  - intros Hall. unfold in_flight in Hslots.
    rewrite (count_slots_done _ Hall) in Hslots. lia.
  - intros m Hm Hle. rewrite Hm in Hslots. unfold concurrency_limit in Hslots.
    cbn in Hslots. lia.
Qed.

(** X9.  [run_scrape] never hangs: in every state that a schedule reaches
    and in which [gather] is still pending, some event is enabled (a fetch
    in flight can finish, or a waiting task can take a free slot). *)
Theorem run_scrape_never_stuck (served : nat) (schedule : list event) (s : sched) :
  run schedule (initial served) = Some s ->
  gather s = None ->
  exists ev s', step1 ev s = Some s'.
Proof.
  intros Hrun Hpending.
  pose proof (sound_exec _ _ _ _ _ _ _ _ _ _ Hrun) as Hsound.
  destruct (sound_progress _ _ _ _ _ _ _ _ Hsound) as (Hfinish & Hacquire & Hfull).
  destruct Hsound as [_ Hfree _ _ Hraised].
  unfold gather in Hpending. destruct (raised s); [discriminate |].
  destruct (collect (tasks s)) eqn:Hcollect; [discriminate |].
  destruct (collect_pending _ Hcollect) as (i & t & Hi & Ht).
  destruct t as [| k | r].
  - destruct (decide (0 < sem_value s)) as [Hsem | Hsem].
    + destruct (Hacquire i Hi Hsem) as [s' Hs']. eauto.
    + destruct Hfull as (j & k & Hj); [lia |].
      destruct (Hfinish j k Hj) as [s' Hs']. eauto.
  - destruct (Hfinish i k Hi) as [s' Hs']. eauto.
  - destruct (Hraised i r Hi) as [d ->]. destruct (Ht d). reflexivity.
Qed.

(** X10.  A run is short: no schedule has more than two events per username
    (no fetch is retried, no task runs twice), and after two events per
    username every task is over and [gather] has its outcome. *)
Theorem run_scrape_schedule_length (served : nat) (schedule : list event) (s : sched) :
  run schedule (initial served) = Some s ->
  (length schedule <= 2 * length usernames)%nat
  /\ ((length schedule = 2 * length usernames)%nat ->
      (forall i t, tasks s !! i = Some t -> exists r, t = Done r)
      /\ exists outcome, gather s = Some outcome).
Proof.
  intros Hrun.
  pose proof Hrun as Hlen. apply schedule_length in Hlen.
  split; [lia |]. intros Hfull.
  assert (Hall : forall i t, tasks s !! i = Some t -> exists r, t = Done r).
  { apply remaining_zero. lia. }
  split; [exact Hall |].
  apply (gather_all_done repr usernames headers timeout proxy_config max_concurrency net);
    [exact (sound_exec _ _ _ _ _ _ _ _ _ _ Hrun) | exact Hall].
Qed.

(** X11.  The outcome of [run_scrape] is decided once: after [gather] has
    raised or returned, no later event (a task that is still running in the
    background) changes what the caller got. *)
Theorem run_scrape_outcome_stable (served : nat) (schedule more : list event)
    (outcome later : result pyval) :
  scrape served schedule = Some outcome ->
  scrape served (schedule ++ more) = Some later ->
  later = outcome.
Proof.
  unfold run_scrape. rewrite exec_app.
  destruct (run schedule (initial served)) as [s |]; [| discriminate].
  intros Hout.
  assert (Hstable : forall more s0 s' g,
             gather s0 = Some g -> run more s0 = Some s' -> gather s' = Some g).
  { clear. intros more. induction more as [| ev more IH];
      intros s s' g Hg Hrun; cbn in Hrun; [congruence |].
    destruct (step1 ev s) as [s1 |] eqn:Hstep; [| discriminate].
    apply (IH s1 s' g); [| exact Hrun]. clear IH Hrun.
    unfold gather in Hg. destruct (raised s) as [e |] eqn:Hraised.
    - destruct ev as [i | i].
      + apply step_Acquire in Hstep as (u & _ & _ & _ & ->).
        unfold gather. cbn [raised]. rewrite Hraised. exact Hg.
      + apply step_Finish in Hstep as (u & k & _ & _ & ->).
        unfold gather. cbn [raised]. rewrite Hraised. exact Hg.
    - destruct (collect (tasks s)) as [rs |] eqn:Hcollect; [| discriminate].
      destruct ev as [i | i].
      + apply step_Acquire in Hstep as (u & Hi & _).
        destruct (collect_returned _ _ _ _ Hcollect Hi). discriminate.
      + apply step_Finish in Hstep as (u & k & Hi & _).
        destruct (collect_returned _ _ _ _ Hcollect Hi). discriminate. }
  destruct (gather s) as [g |] eqn:Hg; [| discriminate].
  injection Hout as <-.
  destruct (run more s) as [s' |] eqn:Hmore; [| discriminate].
  rewrite (Hstable more s s' g Hg Hmore). intros [= <-]. reflexivity.
Qed.

(** X14.  With no username there is nothing to schedule: [run_scrape]
    returns the empty result list at once, and no event is enabled. *)
Theorem run_scrape_no_usernames (served : nat) (schedule : list event) :
  usernames = [] ->
  scrape served schedule =
  match schedule with
  | [] => Some (Return (PDict [("results", PList [])]))
  | _ :: _ => None
  end.
Proof.
  intros Hnone. unfold run_scrape. destruct schedule as [| ev rest].
  - cbn. rewrite Hnone. reflexivity.
  - cbn [exec]. replace (step1 ev (initial served)) with (@None sched); [reflexivity |].
    destruct ev as [i | i]; cbn; rewrite Hnone; reflexivity.
Qed.

End RunScrapeMore.


(** X12.  Without a proxy provider the result list does not depend on the
    order in which the fetches come back, nor on the capacity: when one run
    returns a result list, every other run over the same usernames and the
    same network, on any schedule and with any configured maximum, returns
    that same list, and none raises. *)
Theorem run_scrape_schedule_independent (repr : pyval -> string)
    (usernames : list string) (headers : list (string * string)) (timeout : Timeout)
    (mc1 mc2 : option Z) (net : nat -> transport) (served1 served2 : nat)
    (schedule1 schedule2 : list event) (v : pyval) (outcome : result pyval) :
  run_scrape repr usernames headers timeout None mc1 net served1 schedule1
  = Some (Return v) ->
  run_scrape repr usernames headers timeout None mc2 net served2 schedule2
  = Some outcome ->
  outcome = Return v.
Proof.
  unfold run_scrape.
  destruct (exec _ _ _ _ _ _ schedule1 _) as [s1 |] eqn:Hrun1; [| discriminate].
  destruct (exec _ _ _ _ _ _ schedule2 _) as [s2 |] eqn:Hrun2; [| discriminate].
  destruct (sound_exec _ _ _ _ _ _ _ _ _ _ Hrun1) as [Hlen1 _ _ Hdone1 _].
  destruct (sound_exec _ _ _ _ _ _ _ _ _ _ Hrun2) as [Hlen2 _ _ Hdone2 Hraised2].
  unfold gather. destruct (raised s1); [discriminate |].
  destruct (collect (tasks s1)) as [rs1 |] eqn:Hc1; [| discriminate].
  cbn [bind]. intros [= <-].
  destruct (collect_lookup _ _ Hc1) as [Hrs1 Hlook1].
  (* what the fetch of task [i] gives does not depend on the run *)
  assert (Hsame : forall i u k (r : dict), usernames !! i = Some u -> rs1 !! i = Some r ->
            fst (fetch_profile repr u headers timeout None (net i) k) = Return r).
  { intros i u k r Hu Hr. specialize (Hlook1 i). rewrite Hr in Hlook1. cbn in Hlook1.
    destruct (Hdone1 i _ Hlook1) as (u' & k' & Hu' & Hfetched).
    assert (u' = u) as -> by congruence. rewrite Hfetched. reflexivity. }
  assert (Hsome : forall i u, usernames !! i = Some u -> exists r : dict, rs1 !! i = Some r).
  { intros i u Hu. apply lookup_lt_is_Some_2.
    pose proof (lookup_lt_Some _ _ _ Hu). lia. }
  destruct (raised s2) as [e |].
  - destruct Hraised2 as [i Hi].
    destruct (Hdone2 i _ Hi) as (u & k & Hu & Hfetched).
    destruct (Hsome i u Hu) as [r Hr].
    rewrite (Hsame i u k r Hu Hr) in Hfetched. discriminate.
  - destruct (collect (tasks s2)) as [rs2 |] eqn:Hc2; [| discriminate].
    cbn [bind]. intros [= <-].
    destruct (collect_lookup _ _ Hc2) as [Hrs2 Hlook2].
    enough (Heq : rs2 = rs1) by (rewrite Heq; reflexivity).
    apply list_eq. intros i.
    destruct (usernames !! i) as [u |] eqn:Hu.
    + destruct (Hsome i u Hu) as [r Hr]. rewrite Hr.
      destruct (rs2 !! i) as [r2 |] eqn:Hr2.
      * specialize (Hlook2 i). rewrite Hr2 in Hlook2. cbn in Hlook2.
        destruct (Hdone2 i _ Hlook2) as (u' & k & Hu' & Hfetched).
        assert (u' = u) as -> by congruence.
        rewrite (Hsame i u k r Hu Hr) in Hfetched. congruence.
      * apply lookup_ge_None in Hr2. pose proof (lookup_lt_Some _ _ _ Hu). lia.
    + apply lookup_ge_None in Hu.
      rewrite (proj2 (lookup_ge_None rs1 i)) by lia.
      rewrite (proj2 (lookup_ge_None rs2 i)) by lia. reflexivity.
Qed.

(** ** main: what comes in and what is stored *)

Lemma lstrip_shape (s : string) :
  lstrip s = "" \/ exists c t, lstrip s = String c t /\ is_space c = false.
Proof.
  induction s as [| c s IH]; [left; reflexivity |]. simpl.
  destruct (is_space c) eqn:Hc; [exact IH | right; eauto].
Qed.

Lemma rstrip_head (c : ascii) (t : string) :
  is_space c = false -> exists t', rstrip (String c t) = String c t'.
Proof. intros Hc. simpl. rewrite Hc. destruct (rstrip t); eauto. Qed.

Lemma rstrip_idempotent (s : string) : rstrip (rstrip s) = rstrip s.
Proof.
  induction s as [| c s IH]; [reflexivity |]. simpl.
  destruct (rstrip s) as [| c' r] eqn:Hr.
  - destruct (is_space c) eqn:Hc; [reflexivity |]. simpl. rewrite Hc. reflexivity.
  - change (rstrip (String c (String c' r))) with
      (match rstrip (String c' r) with
       | EmptyString => if is_space c then EmptyString else String c EmptyString
       | r' => String c r'
       end).
    rewrite IH. reflexivity.
Qed.

Lemma strip_idempotent (s : string) : strip (strip s) = strip s.
Proof.
  unfold strip. destruct (lstrip_shape s) as [-> | (c & t & -> & Hc)]; [reflexivity |].
  destruct (rstrip_head c t Hc) as [t' Ht']. rewrite Ht' at 1.
  simpl lstrip. rewrite Hc. rewrite <- Ht'. apply rstrip_idempotent.
Qed.

(** X15.  The usernames that line 111 keeps are never empty and carry no
    whitespace at either end (stripping them again changes nothing); there
    are at most as many as entries; and cleaning is idempotent: the cleaned
    list, given back as input, is kept as it is. *)
Theorem clean_usernames_clean (raw : list pyval) :
  (forall u, u ∈ clean_usernames raw -> u <> "" /\ strip u = u)
  /\ (length (clean_usernames raw) <= length raw)%nat
  /\ clean_usernames (PStr <$> clean_usernames raw) = clean_usernames raw.
Proof.
  induction raw as [| v raw (IHelem & IHlen & IHidem)].
  - split; [intros u Hu; inversion Hu | split; reflexivity].
  - destruct v as [| b | n | f | s | l | d]; cbn [clean_usernames];
      try (split; [exact IHelem | split; [cbn [length]; lia | exact IHidem]]).
    rewrite truthy_strip. destruct (blank s) eqn:Hb; cbn [negb].
    + split; [exact IHelem | split; [cbn [length]; lia | exact IHidem]].
    + assert (Hs : strip s <> "").
      { intros Hempty. apply strip_empty in Hempty. congruence. }
      split; [| split].
      * intros u Hu. apply elem_of_cons in Hu as [-> | Hu]; [| exact (IHelem u Hu)].
        split; [exact Hs | apply strip_idempotent].
      * cbn [length]. lia.
      * cbn [fmap list_fmap clean_usernames]. rewrite strip_idempotent.
        replace (truthy (PStr (strip s))) with true.
        -- f_equal. exact IHidem.
        -- rewrite truthy_strip, Hb. reflexivity.
Qed.

Lemma clean_characters (s : string) :
  clean_usernames (map (fun c => PStr (String c EmptyString)) (list_ascii_of_string s))
  = visible_characters s.
Proof.
  induction s as [| c s IH]; [reflexivity |].
  cbn [list_ascii_of_string map clean_usernames visible_characters].
  unfold strip. cbn [lstrip]. destruct (is_space c) eqn:Hc.
  - cbn [lstrip rstrip truthy String.eqb negb]. exact IH.
  - cbn [rstrip]. rewrite Hc. cbn [truthy String.eqb negb]. rewrite IH. reflexivity.
Qed.

Section MainMore.

Variable repr : pyval -> string.
Variable proxy_config : option ProxyConfiguration.
Variable net : nat -> transport.
Variable served : nat.
Variable schedule : list event.

(** X16.  An input that is absent or falsy (None, an empty object), or an
    object whose usernames entry is absent or falsy (null, an empty list, an
    empty string), is treated like an empty list: [main] stores the payload
    "usernames list is required" and sends no request. *)
Theorem main_without_usernames (input : pyval) :
  truthy input = false
  \/ (exists d, input = PDict d /\ truthy (field "usernames" d) = false) ->
  main repr input proxy_config net served schedule = Some (Return input_error).
Proof.
  intros Hinput.
  assert (Hread : read_usernames input = Return []).
  { unfold read_usernames, py_or.
    destruct (truthy input) eqn:Htruthy.
    - destruct Hinput as [Hf | (d & -> & Hfield)]; [discriminate |].
      unfold get. cbn [get_or bind]. fold (field "usernames" d).
      rewrite Hfield. reflexivity.
    - reflexivity. }
  unfold main. rewrite Hread. reflexivity.
Qed.

(** X17.  A usernames entry that is one string is not taken as one username:
    the loop of line 111 runs over its characters, and every character that
    is not whitespace becomes a username of its own. *)
Theorem read_usernames_of_string (d : dict) (s : string) :
  lookup_item "usernames" d = Some (PStr s) ->
  read_usernames (PDict d) = Return (visible_characters s).
Proof.
  intros Hs. unfold read_usernames, py_or.
  destruct d as [| kv d]; [discriminate |]. cbn [truthy].
  unfold get. cbn [get_or bind]. rewrite Hs. cbn [from_option id].
  destruct s as [| c s]; [reflexivity |].
  cbn [truthy String.eqb negb iterate bind]. rewrite clean_characters. reflexivity.
Qed.

(** X18.  An input that is truthy and not an object (a list of usernames
    given bare, a string, a number) makes [main] raise AttributeError at
    line 109: nothing is stored and no request is sent. *)
Theorem main_input_not_object (input : pyval) :
  truthy input = true ->
  is_dict input = false ->
  main repr input proxy_config net served schedule
  = Some (Raise (no_attribute input "get")).
Proof.
  intros Htruthy Hdict. unfold main, read_usernames, py_or. rewrite Htruthy.
  unfold get. rewrite (get_or_not_dict _ _ _ Hdict). reflexivity.
Qed.

(** X19.  A usernames entry that is truthy and not iterable (a number other
    than zero, true) makes [main] raise TypeError at line 111: nothing is
    stored and no request is sent. *)
Theorem main_usernames_not_iterable (d : dict) (v : pyval) :
  lookup_item "usernames" d = Some v ->
  truthy v = true ->
  not_iterable v = true ->
  main repr (PDict d) proxy_config net served schedule
  = Some (Raise (mk_exn TypeError ("'" +:+ type_name v +:+ "' object is not iterable"))).
Proof.
  intros Hv Htruthy Hiter. unfold main, read_usernames, py_or.
  destruct d as [| kv d]; [discriminate |]. cbn [truthy].
  unfold get. cbn [get_or bind]. rewrite Hv. cbn [from_option id]. rewrite Htruthy.
  destruct v; try discriminate; reflexivity.
Qed.

(** X20.  What [main] stores is all or nothing: when a run of [main] ends
    normally, OUTPUT is either the payload "usernames list is required" (no
    username was left, no request was sent), or a result list with exactly
    one entry per cleaned username, in the order of the input, each under
    its username.  Never a partial list. *)
Theorem main_output (input : pyval) (out : main_run) :
  main repr input proxy_config net served schedule = Some (Return out) ->
  exists survivors,
    read_usernames input = Return survivors
    /\ ((survivors = [] /\ out = input_error)
        \/ (survivors <> []
            /\ exists rs : list dict,
                 OUTPUT out = PDict [("results", PList (map PDict rs))]
                 /\ length rs = length survivors
                 /\ forall i u, survivors !! i = Some u ->
                      exists r : dict, rs !! i = Some r
                        /\ lookup_item "username" r = Some (PStr u))).
Proof.
  unfold main. destruct (read_usernames input) as [survivors | e]; [| discriminate].
  intros H. exists survivors. split; [reflexivity |].
  destruct survivors as [| u0 rest] eqn:Hsurv.
  - left. injection H as <-. split; reflexivity.
  - right. split; [discriminate |]. rewrite <- Hsurv in *.
    destruct (run_scrape _ _ _ _ _ _ _ _ schedule) as [[results | e] |] eqn:Hscrape;
      [| discriminate | discriminate].
    destruct (exec _ _ _ _ _ _ schedule _) as [s |]; [| discriminate].
    injection H as <-. cbn [OUTPUT].
    exact (run_scrape_in_order _ _ _ _ _ _ _ _ _ _ Hscrape).
Qed.

End MainMore.

(** ** The further properties at concrete inputs *)

Lemma fetch_profile_echo_witness :
  exists r,
    fst (fetch_profile repr_elided "alice" BASE_HEADERS HTTPX_TIMEOUT (Some rotating)
           (fails_with ConnectError "") 4) = Return r
    /\ lookup_item "username" r = Some (PStr "alice")
    /\ lookup_item "proxy" r = Some (PStr "http://proxy-4.local:8000").
Proof.
  eexists. split; [reflexivity |].
  destruct (fetch_profile_echo repr_elided "alice" BASE_HEADERS HTTPX_TIMEOUT
              (Some rotating) (fails_with ConnectError "") 4 _ eq_refl)
    as (Hu & _ & _ & Hp).
  split; [exact Hu | exact (Hp rotating eq_refl)].
Defined.

Lemma fetch_profile_non_200_witness :
  fst (fetch_profile repr_elided "alice" BASE_HEADERS HTTPX_TIMEOUT None
         (fun _ => Return {| status_code := 503; json := Return (PDict []) |}) 0)
  = Return [("username", PStr "alice");
            ("error", PStr "Failed to fetch user details: 503");
            ("status_code", PInt 503);
            ("proxy", PNone)].
Proof.
  refine (fetch_profile_non_200 repr_elided "alice" BASE_HEADERS HTTPX_TIMEOUT None
            (fun _ => Return {| status_code := 503; json := Return (PDict []) |}) 0
            {| status_code := 503; json := Return (PDict []) |} eq_refl _).
  discriminate.
Defined.

Lemma fetch_profile_invalid_json_witness :
  fst (fetch_profile repr_elided "alice" BASE_HEADERS HTTPX_TIMEOUT None
         (fun _ => Return {| status_code := 200;
                             json := Raise (mk_exn (OtherError "JSONDecodeError")
                                              "Expecting value") |}) 0)
  = Return [("username", PStr "alice");
            ("error", PStr "Invalid JSON: Expecting value");
            ("proxy", PNone)].
Proof.
  exact (proj1 (fetch_profile_invalid_json repr_elided "alice" BASE_HEADERS
                  HTTPX_TIMEOUT None _ 0
                  {| status_code := 200;
                     json := Raise (mk_exn (OtherError "JSONDecodeError")
                                      "Expecting value") |}
                  (mk_exn (OtherError "JSONDecodeError") "Expecting value")
                  eq_refl eq_refl eq_refl)).
Defined.

Lemma fetch_profile_keys_witness :
  exists r,
    fst (fetch_profile repr_elided "alice" BASE_HEADERS HTTPX_TIMEOUT None
           (example_net 0) 0) = Return r
    /\ map fst r = success_keys.
Proof.
  eexists. split; [reflexivity |].
  destruct (fetch_profile_keys repr_elided "alice" BASE_HEADERS HTTPX_TIMEOUT None
              (example_net 0) 0 _ eq_refl) as [[H | [H | H]] _];
    [discriminate H | discriminate H | exact H].
Defined.

Lemma fetch_profile_ok_origin_witness :
  exists r resp d,
    fst (fetch_profile repr_elided "alice" BASE_HEADERS HTTPX_TIMEOUT None
           (example_net 0) 0) = Return r
    /\ status_code resp = 200
    /\ lookup_item "raw" r = Some (PDict d).
Proof.
  eexists.
  destruct (fetch_profile_ok_origin repr_elided "alice" BASE_HEADERS HTTPX_TIMEOUT None
              (example_net 0) 0 _ eq_refl eq_refl) as (resp & d & _ & H200 & _ & _ & Hraw).
  exists resp, d. split; [reflexivity | split; assumption].
Defined.

Lemma fetch_profile_returns_iff_witness :
  let d := [("data", PDict [("user", PDict [("edge_follow", PInt 3)])])] in
  levels_well_shaped d = false
  /\ ~ exists r,
         fst (fetch_profile repr_elided "alice" BASE_HEADERS HTTPX_TIMEOUT None
                (answers_200 (PDict d)) 0) = Return r.
Proof.
  intros d. split; [reflexivity |]. intros Hr.
  apply (fetch_profile_returns_iff repr_elided "alice" BASE_HEADERS HTTPX_TIMEOUT None
           (answers_200 (PDict d)) 0 {| status_code := 200; json := Return (PDict d) |} d
           eq_refl eq_refl eq_refl eq_refl) in Hr.
  discriminate Hr.
Defined.

Lemma run_scrape_slots_witness :
  exists s,
    exec repr_elided ["alice"; "bob"; "carol"] BASE_HEADERS HTTPX_TIMEOUT None example_net
      [Acquire 1; Finish 1; Acquire 2; Finish 2; Acquire 0]
      (start ["alice"; "bob"; "carol"] (Some (-2)) 0) = Some s
    /\ sem_value s + Z.of_nat (in_flight s) = 1
    /\ (in_flight s <= 1)%nat.
Proof.
  eexists. split; [reflexivity |].
  destruct (run_scrape_slots repr_elided ["alice"; "bob"; "carol"] BASE_HEADERS
              HTTPX_TIMEOUT None (Some (-2)) example_net 0
              [Acquire 1; Finish 1; Acquire 2; Finish 2; Acquire 0] _ eq_refl)
    as (_ & Hsum & _ & Hone).
  split; [exact Hsum | apply (Hone (-2)); [reflexivity | lia]].
Defined.

Lemma run_scrape_never_stuck_witness :
  exists s,
    exec repr_elided ["alice"; "bob"] BASE_HEADERS HTTPX_TIMEOUT None example_net
      [Acquire 1] (start ["alice"; "bob"] (Some 1) 0) = Some s
    /\ gather s = None
    /\ exists ev s',
         step repr_elided ["alice"; "bob"] BASE_HEADERS HTTPX_TIMEOUT None example_net
           ev s = Some s'.
Proof.
  eexists. split; [reflexivity |]. split; [reflexivity |].
  exact (run_scrape_never_stuck repr_elided ["alice"; "bob"] BASE_HEADERS HTTPX_TIMEOUT
           None (Some 1) example_net 0 [Acquire 1] _ eq_refl eq_refl).
Defined.

Lemma run_scrape_schedule_length_witness :
  exists s,
    exec repr_elided ["alice"; "bob"] BASE_HEADERS HTTPX_TIMEOUT None example_net
      [Acquire 1; Acquire 0; Finish 0; Finish 1] (start ["alice"; "bob"] None 0) = Some s
    /\ exists outcome, gather s = Some outcome.
Proof.
  eexists. split; [reflexivity |].
  exact (proj2 (proj2 (run_scrape_schedule_length repr_elided ["alice"; "bob"]
                         BASE_HEADERS HTTPX_TIMEOUT None None example_net 0
                         [Acquire 1; Acquire 0; Finish 0; Finish 1] _ eq_refl)
                  eq_refl)).
Defined.

Lemma run_scrape_outcome_stable_witness :
  exists outcome later,
    run_scrape repr_elided ["alice"; "bob"; "carol"] BASE_HEADERS HTTPX_TIMEOUT None
      (Some 3) example_net 0 [Acquire 0; Acquire 1; Acquire 2; Finish 2] = Some outcome
    /\ run_scrape repr_elided ["alice"; "bob"; "carol"] BASE_HEADERS HTTPX_TIMEOUT None
         (Some 3) example_net 0
         ([Acquire 0; Acquire 1; Acquire 2; Finish 2] ++ [Finish 0; Finish 1]) = Some later
    /\ later = outcome.
Proof.
  do 2 eexists. split; [reflexivity |]. split; [reflexivity |].
  exact (run_scrape_outcome_stable repr_elided ["alice"; "bob"; "carol"] BASE_HEADERS
           HTTPX_TIMEOUT None (Some 3) example_net 0
           [Acquire 0; Acquire 1; Acquire 2; Finish 2] [Finish 0; Finish 1] _ _
           eq_refl eq_refl).
Defined.

Lemma run_scrape_schedule_independent_witness :
  exists v outcome,
    run_scrape repr_elided ["alice"; "bob"] BASE_HEADERS HTTPX_TIMEOUT None (Some 5)
      example_net 0 [Acquire 0; Acquire 1; Finish 1; Finish 0] = Some (Return v)
    /\ run_scrape repr_elided ["alice"; "bob"] BASE_HEADERS HTTPX_TIMEOUT None (Some 1)
         example_net 7 [Acquire 1; Finish 1; Acquire 0; Finish 0] = Some outcome
    /\ outcome = Return v.
Proof.
  do 2 eexists. split; [reflexivity |]. split; [reflexivity |].
  exact (run_scrape_schedule_independent repr_elided ["alice"; "bob"] BASE_HEADERS
           HTTPX_TIMEOUT (Some 5) (Some 1) example_net 0 7
           [Acquire 0; Acquire 1; Finish 1; Finish 0]
           [Acquire 1; Finish 1; Acquire 0; Finish 0] _ _ eq_refl eq_refl).
Defined.

Lemma run_scrape_no_usernames_witness :
  run_scrape repr_elided [] BASE_HEADERS HTTPX_TIMEOUT None (Some 10) example_net 0 []
  = Some (Return (PDict [("results", PList [])]))
  /\ run_scrape repr_elided [] BASE_HEADERS HTTPX_TIMEOUT None (Some 10) example_net 0
       [Acquire 0] = None.
Proof.
  split.
  - exact (run_scrape_no_usernames repr_elided [] BASE_HEADERS HTTPX_TIMEOUT None
             (Some 10) example_net 0 [] eq_refl).
  - exact (run_scrape_no_usernames repr_elided [] BASE_HEADERS HTTPX_TIMEOUT None
             (Some 10) example_net 0 [Acquire 0] eq_refl).
Defined.

Lemma clean_usernames_clean_witness :
  clean_usernames [PStr "  alice "; PInt 3; PStr "   "; PStr "bob"] = ["alice"; "bob"]
  /\ clean_usernames (PStr <$> ["alice"; "bob"]) = ["alice"; "bob"].
Proof.
  split; [reflexivity |].
  exact (proj2 (proj2 (clean_usernames_clean
                         [PStr "  alice "; PInt 3; PStr "   "; PStr "bob"]))).
Defined.

Lemma main_without_usernames_witness :
  main repr_elided PNone None example_net 0 [Acquire 0] = Some (Return input_error)
  /\ main repr_elided (PDict [("usernames", PNone); ("other", PInt 1)]) None example_net 0
       [] = Some (Return input_error).
Proof.
  split.
  - exact (main_without_usernames repr_elided None example_net 0 [Acquire 0] PNone
             (or_introl eq_refl)).
  - apply main_without_usernames. right. eexists. split; reflexivity.
Defined.

Lemma read_usernames_of_string_witness :
  read_usernames (PDict [("usernames", PStr "al ice")])
  = Return ["a"; "l"; "i"; "c"; "e"].
Proof.
  exact (read_usernames_of_string [("usernames", PStr "al ice")] "al ice" eq_refl).
Defined.

Lemma main_input_not_object_witness :
  main repr_elided (PList [PStr "alice"]) None example_net 0 [Acquire 0; Finish 0]
  = Some (Raise (mk_exn AttributeError "'list' object has no attribute 'get'")).
Proof.
  exact (main_input_not_object repr_elided None example_net 0 [Acquire 0; Finish 0]
           (PList [PStr "alice"]) eq_refl eq_refl).
Defined.

Lemma main_usernames_not_iterable_witness :
  main repr_elided (PDict [("usernames", PInt 5)]) None example_net 0 []
  = Some (Raise (mk_exn TypeError "'int' object is not iterable")).
Proof.
  exact (main_usernames_not_iterable repr_elided None example_net 0 []
           [("usernames", PInt 5)] (PInt 5) eq_refl eq_refl eq_refl).
Defined.

Lemma main_output_witness :
  exists out survivors,
    main repr_elided (PDict [("usernames", PList [PStr " alice"; PStr ""; PStr "bob "])])
      None example_net 0 [Acquire 0; Acquire 1; Finish 1; Finish 0] = Some (Return out)
    /\ read_usernames (PDict [("usernames", PList [PStr " alice"; PStr ""; PStr "bob "])])
       = Return survivors
    /\ survivors = ["alice"; "bob"]
    /\ out <> input_error.
Proof.
  eexists.
  destruct (main_output repr_elided None example_net 0
              [Acquire 0; Acquire 1; Finish 1; Finish 0]
              (PDict [("usernames", PList [PStr " alice"; PStr ""; PStr "bob "])])
              _ eq_refl) as (survivors & Hread & Hcases).
  exists survivors. split; [reflexivity |]. split; [exact Hread |].
  injection Hread as <-. split; [reflexivity | discriminate].
Defined.

(** X21.  Where a status_code in a result comes from: the transport answered,
    and either the status was not 200 and the status_code is that status, or
    the status was 200, the body an object with a truthy error entry, and
    the status_code is the body's own entry, 500 when it has none.  A
    transport failure, a body that does not parse and a success never carry
    a status_code. *)
Theorem fetch_profile_status_code_origin (repr : pyval -> string) (username : string)
    (headers : list (string * string)) (timeout : Timeout)
    (proxy_config : option ProxyConfiguration) (client_get : transport) (served : nat)
    (r : dict) (c : pyval) :
  fst (fetch_profile repr username headers timeout proxy_config client_get served)
  = Return r ->
  lookup_item "status_code" r = Some c ->
  exists resp,
    client_get (build_request username headers timeout
                  (fst (resolve_proxy proxy_config served))) = Return resp
    /\ ((status_code resp <> 200 /\ c = PInt (status_code resp))
        \/ (status_code resp = 200
            /\ exists d, json resp = Return (PDict d)
                         /\ truthy (field "error" d) = true
                         /\ c = default (PInt 500) (lookup_item "status_code" d))).
Proof.
  rewrite fetch_profile_unfold. cbn [fst]. unfold fetch_via.
  destruct (client_get _) as [resp | exc] eqn:Hget.
  2:{ intros [= <-] Hc.
      destruct (on_transport_error_text username
                  (fst (resolve_proxy proxy_config served)) exc) as (msg & Hrec & _).
      rewrite Hrec in Hc. discriminate Hc. }
  intros H Hc. exists resp. split; [reflexivity |]. revert H Hc. unfold on_response.
  destruct (status_code resp =? 401) eqn:H401.
  { apply Z.eqb_eq in H401. intros [= <-] [= <-]. left. rewrite H401.
    split; [discriminate | reflexivity]. }
  destruct (status_code resp =? 200) eqn:H200.
  2:{ apply Z.eqb_neq in H200. intros [= <-] [= <-]. left. split; [exact H200 | reflexivity]. }
  apply Z.eqb_eq in H200. cbn [negb]. unfold on_ok_response.
  destruct (json resp) as [data | exc] eqn:Hjson; [| intros [= <-] Hc; discriminate Hc].
  intros H Hc. apply bind_Return in H as (err & Herr & H).
  apply get_Return in Herr as (d & -> & ->).
  destruct (truthy (field "error" d)) eqn:Htruthy.
  - apply bind_Return in H as (shown & _ & H).
    apply bind_Return in H as (code & Hcode & H).
    injection H as <-. injection Hc as <-.
    apply get_or_Return in Hcode as (d' & [= <-] & ->).
    right. split; [exact H200 |]. exists d. repeat split; assumption.
  - apply success_record_marks in H as (_ & _ & _ & Hnone & _). congruence.
Qed.

Lemma fetch_profile_status_code_origin_witness :
  exists r resp,
    fst (fetch_profile repr_elided "alice" BASE_HEADERS HTTPX_TIMEOUT None
           (answers_200 (PDict [("error", PStr "gone"); ("status_code", PInt 410)])) 0)
    = Return r
    /\ lookup_item "status_code" r = Some (PInt 410)
    /\ status_code resp = 200.
Proof.
  eexists.
  destruct (fetch_profile_status_code_origin repr_elided "alice" BASE_HEADERS
              HTTPX_TIMEOUT None
              (answers_200 (PDict [("error", PStr "gone"); ("status_code", PInt 410)]))
              0 _ (PInt 410) eq_refl eq_refl) as (resp & Hget & [[Hne _] | [H200 _]]).
  - injection Hget as <-. destruct Hne. reflexivity.
  - exists resp. repeat split. exact H200.
Defined.

(** ** main: the usernames that are left, and their fetches *)

(** Once [gather] has its outcome, no later event changes it. *)
Lemma gather_latched (repr : pyval -> string) (usernames : list string)
    (headers : list (string * string)) (timeout : Timeout)
    (proxy_config : option ProxyConfiguration) (net : nat -> transport)
    (more : list event) (s s' : sched) (g : result (list dict)) :
  gather s = Some g ->
  exec repr usernames headers timeout proxy_config net more s = Some s' ->
  gather s' = Some g.
Proof.
  revert s. induction more as [| ev more IH]; intros s Hg Hrun; cbn in Hrun;
    [congruence |].
  destruct (step _ _ _ _ _ _ ev s) as [s1 |] eqn:Hstep; [| discriminate].
  apply (IH s1); [| exact Hrun]. clear IH Hrun.
  unfold gather in Hg. destruct (raised s) as [e |] eqn:Hraised.
  - destruct ev as [i | i].
    + apply step_Acquire in Hstep as (u & _ & _ & _ & ->).
      unfold gather. cbn [raised]. rewrite Hraised. exact Hg.
    + apply step_Finish in Hstep as (u & k & _ & _ & ->).
      unfold gather. cbn [raised]. rewrite Hraised. exact Hg.
  - destruct (collect (tasks s)) as [rs |] eqn:Hcollect; [| discriminate].
    destruct ev as [i | i].
    + apply step_Acquire in Hstep as (u & Hi & _).
      destruct (collect_returned _ _ _ _ Hcollect Hi). discriminate.
    + apply step_Finish in Hstep as (u & k & Hi & _).
      destruct (collect_returned _ _ _ _ Hcollect Hi). discriminate.
Qed.

(** C7, the defect at work.  Twelve usernames pass the filter of line 111.
    Ten tasks enter the semaphore; the first response is a 200 with the body
    [[]], so the first fetch raises at line 62; the eleventh task takes the
    slot.  [gather] passes the exception on and [main] ends with it: the
    twelfth username is still waiting, no request went out for it, nothing
    is stored, and whatever the other tasks do later, [main] has ended with
    that exception. *)
Theorem main_aborts_before_waiting_fetch :
  let input := PDict [("usernames", PList (PStr <$> dozen))] in
  let escaped := mk_exn AttributeError "'list' object has no attribute 'get'" in
  read_usernames input = Return dozen
  /\ main repr_elided input None first_body_is_list 0 ten_enter_first_ends
     = Some (Raise escaped)
  /\ (exists s,
        exec repr_elided dozen BASE_HEADERS HTTPX_TIMEOUT None first_body_is_list
          ten_enter_first_ends (start dozen (Some 10) 0) = Some s
        /\ tasks s !! 11%nat = Some Waiting
        /\ profile_url "u11" ∉ map req_url (sent s))
  /\ forall more outcome,
       main repr_elided input None first_body_is_list 0 (ten_enter_first_ends ++ more)
       = Some outcome ->
       outcome = Raise escaped.
Proof.
  intros input escaped.
  assert (Hread : read_usernames input = Return dozen) by (vm_compute; reflexivity).
  split; [exact Hread |]. split; [vm_compute; reflexivity |]. split.
  { eexists. split; [vm_compute; reflexivity |]. split; [vm_compute; reflexivity |].
    apply (bool_decide_unpack _). vm_compute. exact I. }
  assert (Hrun : exists s,
            exec repr_elided dozen BASE_HEADERS HTTPX_TIMEOUT None first_body_is_list
              ten_enter_first_ends (start dozen (Some 10) 0) = Some s
            /\ gather s = Some (Raise escaped)).
  { eexists. split; vm_compute; reflexivity. }
  destruct Hrun as (s & Hrun & Hg).
  intros more outcome. unfold main. rewrite Hread.
  change dozen with ("u00" :: tl dozen) at 1. cbv iota. unfold run_scrape.
  rewrite exec_app, Hrun.
  destruct (exec _ _ _ _ _ _ more s) as [s' |] eqn:Hmore; [| discriminate].
  rewrite (gather_latched _ _ _ _ _ _ _ _ _ _ Hg Hmore). cbn [bind].
  intros [= <-]. reflexivity.
Qed.

Section OnResponse.

Variable repr : pyval -> string.
Variable username : string.
Variable proxy_url : pyval.

(** X6.  Once a response has arrived, the only exception that the handling
    of lines 46-83 lets out is the AttributeError of a [.get] on a value
    that is not an object, and only for a status of 200 and a body that
    parsed.  Another status and a body that fails to parse never raise, and
    the subscript of line 65 never raises KeyError. *)
Theorem on_response_raises_only (resp : response) (e : pyexn) :
  on_response repr username proxy_url resp = Raise e ->
  status_code resp = 200
  /\ exists data v,
       json resp = Return data
       /\ is_dict v = false
       /\ e = no_attribute v "get".
Proof.
  unfold on_response.
  destruct (status_code resp =? 401); [discriminate |].
  destruct (status_code resp =? 200) eqn:H200; [| discriminate].
  apply Z.eqb_eq in H200. cbn [negb]. unfold on_ok_response.
  destruct (json resp) as [data | exc] eqn:Hjson; [| discriminate].
  intros H. split; [exact H200 |]. exists data.
  apply bind_Raise in H as [H | (err & Herr & H)].
  - apply get_or_Raise in H as [Hv ->]. exists data. repeat split; assumption.
  - apply get_Return in Herr as (d & -> & ->).
    destruct (truthy (field "error" d)) eqn:Htruthy.
    + unfold getitem in H. rewrite (truthy_field_present _ _ Htruthy) in H.
      discriminate H.
    + apply success_record_Raise in H as (v & Hv & ->).
      exists v. repeat split; assumption.
Qed.

End OnResponse.

Lemma on_response_raises_only_witness :
  exists e data v,
    on_response repr_elided "carol" PNone
      {| status_code := 200; json := Return (PInt 5) |} = Raise e
    /\ json {| status_code := 200; json := Return (PInt 5) |} = Return data
    /\ is_dict v = false
    /\ e = no_attribute v "get".
Proof.
  eexists.
  destruct (on_response_raises_only repr_elided "carol" PNone
              {| status_code := 200; json := Return (PInt 5) |} _ eq_refl)
    as (_ & data & v & H).
  exists data, v. split; [reflexivity | exact H].
Defined.

Section RunScrapeRequests.

Variable repr : pyval -> string.
Variable usernames : list string.
Variable headers : list (string * string).
Variable timeout : Timeout.
Variable proxy_config : option ProxyConfiguration.
Variable max_concurrency : option Z.
Variable net : nat -> transport.

Local Abbreviation run := (exec repr usernames headers timeout proxy_config net).
Local Abbreviation initial := (start usernames max_concurrency).


End RunScrapeRequests.


Section MainSurvivors.

Variable repr : pyval -> string.
Variable proxy_config : option ProxyConfiguration.
Variable net : nat -> transport.
Variable served : nat.

Lemma main_scrapes (input : pyval) (survivors : list string) (schedule : list event) :
  read_usernames input = Return survivors ->
  survivors <> [] ->
  main repr input proxy_config net served schedule =
  match run_scrape repr survivors BASE_HEADERS HTTPX_TIMEOUT proxy_config (Some 10) net
          served schedule,
        exec repr survivors BASE_HEADERS HTTPX_TIMEOUT proxy_config net schedule
          (start survivors (Some 10) served) with
  | Some (Return results), Some s =>
      Some (Return {| OUTPUT := results; requests := sent s |})
  | Some (Raise e), _ => Some (Raise e)
  | _, _ => None
  end.
Proof.
  intros Hread Hsome. unfold main. rewrite Hread.
  destruct survivors; [congruence | reflexivity].
Qed.

(** X22.  For an input whose usernames entry is a list, the usernames that
    are used are exactly the entries that are strings and not blank,
    stripped; and [main] stores the payload "usernames list is required",
    with no request sent, exactly when no entry is such a string (the list
    is empty, or holds only blank strings and values that are not
    strings). *)
Theorem main_discards_blank_entries (d : dict) (raw : list pyval)
    (schedule : list event) :
  lookup_item "usernames" d = Some (PList raw) ->
  read_usernames (PDict d) = Return (clean_usernames raw)
  /\ (forall u, u ∈ clean_usernames raw <->
                exists s, PStr s ∈ raw /\ blank s = false /\ u = strip s)
  /\ (main repr (PDict d) proxy_config net served schedule = Some (Return input_error)
      <-> forall s, PStr s ∈ raw -> blank s = true).
Proof.
  intros Hraw. pose proof (read_usernames_list d raw Hraw) as Hread.
  split; [exact Hread |]. split; [apply clean_usernames_elem |].
  destruct (clean_usernames raw) as [| u0 rest] eqn:Hclean.
  - split.
    + intros _ s Hs. destruct (blank s) eqn:Hb; [reflexivity |].
      assert (Hin : strip s ∈ clean_usernames raw)
        by (apply clean_usernames_elem; eauto).
      rewrite Hclean in Hin. inversion Hin.
    + intros _. unfold main. rewrite Hread. reflexivity.
  - split.
    + intros Hmain. exfalso.
      rewrite (main_scrapes _ (u0 :: rest) schedule Hread) in Hmain by discriminate.
      destruct (run_scrape _ _ _ _ _ _ _ _ schedule) as [[results | e] |] eqn:Hscrape;
        [| discriminate | discriminate].
      destruct (exec _ _ _ _ _ _ schedule _) as [s |]; [| discriminate].
      destruct (run_scrape_in_order _ _ _ _ _ _ _ _ _ _ Hscrape) as (rs & -> & _).
      discriminate Hmain.
    + intros Hblank. exfalso.
      assert (Hin : u0 ∈ clean_usernames raw) by (rewrite Hclean; left).
      apply clean_usernames_elem in Hin as (s & Hs & Hb & _).
      rewrite (Hblank s Hs) in Hb. discriminate.
Qed.


End MainSurvivors.

Lemma main_discards_blank_entries_witness :
  main repr_elided (PDict [("usernames", PList [PStr ""; PStr "  "; PInt 7])]) None
    example_net 0 [Acquire 0]
  = Some (Return input_error).
Proof.
  apply (main_discards_blank_entries repr_elided None example_net 0
           [("usernames", PList [PStr ""; PStr "  "; PInt 7])]
           [PStr ""; PStr "  "; PInt 7] [Acquire 0] eq_refl).
  intros s Hs.
  repeat (apply elem_of_cons in Hs as [Hs | Hs]; [try discriminate Hs |]).
  - injection Hs as ->. reflexivity.
  - injection Hs as ->. reflexivity.
  - inversion Hs.
Defined.

